(** * PyVenture: the command interpreter, the movement state machine and
      the session tracker

    A shallow embedding of [settings.py], [sprites.py] (classes [Obstacle],
    [Collectible], [Player], [Hero]), [ui.py] (the output log of [Console]
    and its input line) and [game.py] (classes [Challenge] and [Game], with
    the loop that feeds them), followed by the properties of the
    specification that concern them and by further properties of the code.

    Conventions.
    - A Python [str] is the list of its code points.
    - Python integers are [Z]; the pixel coordinates of the player, which
      the animation turns into floats, are rationals: rounding is not
      modelled, and the square root is a service of the runtime.
    - Objects are records; a method is a function from the state it reads
      to the state it leaves, paired with its return value where it has one.
      [Game.player] and [Hero._player] are one object: the methods of [Hero]
      act on the player of the game.
    - Exceptions are values of [PyExc]; a call that may raise returns a sum.
      [TypeError] is the one the interpreter raises for a call with too
      many arguments; its message is never read.
    - Rendering (surfaces, fonts, particles, floating texts, the bobbing of
      gems, the pulse and the dance offset of the player) is left out: no
      function modelled here reads it. *)

From Stdlib Require Import String Ascii.
From Stdlib Require Import ZArith QArith Qround List Lia.
From stdpp Require Import base list gmap.
Import ListNotations.
Open Scope Z_scope.

(** ** Python strings *)

Definition str := list N.

Module Py.

(** A literal made of ASCII characters. *)
Definition lit (s : String.string) : str :=
  map Ascii.N_of_ascii (String.list_ascii_of_string s).
Arguments lit s%_string.

Definition str_eqb (a b : str) : bool := bool_decide (a = b).

(** [s.startswith(p)] *)
Fixpoint startswith (p s : str) : bool :=
  match p, s with
  | [], _ => true
  | _ :: _, [] => false
  | a :: p', b :: s' => (a =? b)%N && startswith p' s'
  end.

(** [s.endswith(p)] *)
Definition endswith (p s : str) : bool := startswith (rev p) (rev s).

(** [str.isspace] on one character: the white space of the Unicode
    database. *)
Definition isspace (c : N) : bool :=
  ((9 <=? c) && (c <=? 13) || (28 <=? c) && (c <=? 32) || (c =? 133)
   || (c =? 160) || (c =? 5760) || (8192 <=? c) && (c <=? 8202)
   || (c =? 8232) || (c =? 8233) || (c =? 8239) || (c =? 8287)
   || (c =? 12288))%N.

Fixpoint lstrip (s : str) : str :=
  match s with
  | c :: s' => if isspace c then lstrip s' else s
  | [] => []
  end.

Definition rstrip (s : str) : str := rev (lstrip (rev s)).

(** [s.strip()] *)
Definition strip (s : str) : str := rstrip (lstrip s).

(** [s.replace(old, new)]: the occurrences of [old] are found from the left
    and do not overlap; [skip] counts the characters of an occurrence that
    are still to be passed over. *)
Fixpoint replace_from (old new : str) (skip : nat) (s : str) : str :=
  match s with
  | [] => []
  | c :: s' =>
      match skip with
      | S k => replace_from old new k s'
      | O =>
          if startswith old s
          then new ++ replace_from old new (Nat.pred (length old)) s'
          else c :: replace_from old new O s'
      end
  end.

Definition replace (old new s : str) : str :=
  match old with
  | [] => new ++ flat_map (fun c => c :: new) s
  | _ :: _ => replace_from old new O s
  end.

(** [sub in s] *)
Fixpoint contains (sub s : str) : bool :=
  startswith sub s ||
  match s with
  | [] => false
  | _ :: s' => contains sub s'
  end.

(** [s[1:-1]] *)
Definition slice_1_m1 (s : str) : str := removelast (tail s).

(** [str(n)] for an integer. *)
Definition digit (d : N) : N := (48 + d)%N.

Fixpoint digits_of (fuel : nat) (n : N) (acc : str) : str :=
  match fuel with
  | O => acc
  | S f =>
      let acc' := digit (n mod 10) :: acc in
      if (n <? 10)%N then acc' else digits_of f (n / 10) acc'
  end.

Definition str_of_N (n : N) : str := digits_of (S (N.to_nat (N.log2 n))) n [].

Definition str_of_Z (z : Z) : str :=
  if z <? 0 then 45%N :: str_of_N (Z.abs_N z) else str_of_N (Z.abs_N z).

Definition is_ascii_upper (c : N) : bool := ((65 <=? c) && (c <=? 90))%N.
Definition is_ascii_lower (c : N) : bool := ((97 <=? c) && (c <=? 122))%N.
Definition is_ascii_digit (c : N) : bool := ((48 <=? c) && (c <=? 57))%N.

(** The values a command argument can evaluate to; [PyOther shown] is any
    other object, known by the text [str] gives for it. *)
Inductive value :=
| PyStr (s : str)
| PyInt (z : Z)
| PyBool (b : bool)
| PyNone
| PyOther (shown : str).

(** [str(v)], as an f-string formats [v]. *)
Definition to_str (v : value) : str :=
  match v with
  | PyStr s => s
  | PyInt z => str_of_Z z
  | PyBool true => lit "True"
  | PyBool false => lit "False"
  | PyNone => lit "None"
  | PyOther shown => shown
  end.

Inductive PyExc :=
| SyntaxError (msg : str)
| NameError (msg : str)
| AttributeError (msg : str)
| TypeError.

(** What the code asks of the Python runtime and is not part of the
    repository: the Unicode database beyond ASCII
    (alphanumeric and cased characters, lower and title case), the builtin [eval]
    ([None] when it raises; an expression with side effects or one that
    does not return is outside the model) and the square root of floats. *)
Class Runtime := {
  uni_alnum : N -> bool;
  uni_lower : N -> str;
  uni_title : N -> str;
  uni_cased : N -> bool;
  eval : str -> option value;
  sqrt : Q -> Q
}.

Section WithRuntime.
Context {R : Py.Runtime}.

(** A character [\w] matches. *)
Definition is_word (c : N) : bool :=
  if (c <? 128)%N
  then is_ascii_upper c || is_ascii_lower c || is_ascii_digit c || (c =? 95)%N
  else uni_alnum c.

Definition lower_char (c : N) : str :=
  if (c <? 128)%N
  then [if is_ascii_upper c then (c + 32)%N else c]
  else uni_lower c.

Definition title_char (c : N) : str :=
  if (c <? 128)%N
  then [if is_ascii_lower c then (c - 32)%N else c]
  else uni_title c.

(** [s.lower()] *)
Definition lower (s : str) : str := flat_map lower_char s.

Definition is_cased (c : N) : bool :=
  if (c <? 128)%N then is_ascii_upper c || is_ascii_lower c else uni_cased c.

(** [s.title()]: a cased character is upper-cased after an uncased one and
    lower-cased after a cased one. *)
Fixpoint title_from (prev_cased : bool) (s : str) : str :=
  match s with
  | [] => []
  | c :: s' =>
      (if prev_cased then lower_char c else title_char c)
        ++ title_from (is_cased c) s'
  end.

Definition title (s : str) : str := title_from false s.

End WithRuntime.

End Py.

Abbreviation lit := Py.lit.

(** ** settings.py *)

Module Settings.

Definition Color := list Z.

Definition TILE_SIZE : Z := 64.
Definition GRID_COLS : Z := 12.
Definition GRID_ROWS : Z := 9.
Definition GAME_AREA_X : Z := 40.
Definition GAME_AREA_Y : Z := 40.

Definition CONSOLE_MAX_OUTPUT_LINES : nat := 15.

Definition COLOR_SECONDARY : Color := [139; 92; 246].
Definition COLOR_ACCENT : Color := [34; 211; 238].
Definition COLOR_SUCCESS : Color := [52; 211; 153].
Definition COLOR_WARNING : Color := [251; 191; 36].
Definition COLOR_ERROR : Color := [248; 113; 113].
Definition COLOR_TEXT_PRIMARY : Color := [248; 250; 252].
Definition COLOR_TEXT_SECONDARY : Color := [148; 163; 184].
Definition COLOR_TEXT_MUTED : Color := [100; 116; 139].
Definition COLOR_CONSOLE_BORDER : Color := [60; 65; 90].
Definition COLOR_CONSOLE_PROMPT : Color := [34; 211; 238].

Definition PLAYER_START_COL : Z := 5.
Definition PLAYER_START_ROW : Z := 4.
Definition PLAYER_MOVE_SPEED : Z := 8.

Definition VALID_HERO_METHODS : list str :=
  [ lit "move_right"; lit "move_left"; lit "move_up"; lit "move_down";
    lit "jump"; lit "attack"; lit "defend"; lit "say"; lit "spin";
    lit "dance"; lit "collect" ].

Definition METHOD_SUGGESTIONS_items : list (str * str) :=
  [ (lit "moveright", lit "move_right");
    (lit "moveleft", lit "move_left");
    (lit "moveup", lit "move_up");
    (lit "movedown", lit "move_down");
    (lit "move_rigth", lit "move_right");
    (lit "move_rigt", lit "move_right");
    (lit "move_leftt", lit "move_left");
    (lit "move_u", lit "move_up");
    (lit "move_d", lit "move_down");
    (lit "right", lit "move_right");
    (lit "left", lit "move_left");
    (lit "up", lit "move_up");
    (lit "down", lit "move_down");
    (lit "spinn", lit "spin");
    (lit "dans", lit "dance");
    (lit "dansce", lit "dance") ].

Definition METHOD_SUGGESTIONS : gmap str str :=
  list_to_map METHOD_SUGGESTIONS_items.

End Settings.

(** ** sprites.py *)

Module Direction.
Inductive t := NONE | UP | DOWN | LEFT | RIGHT.
End Direction.

Module Obstacle.

Record t := mk {
  grid_col : Z;
  grid_row : Z;
  obstacle_type : str
}.

Definition __init__ (col row : Z) (obstacle_type : str) : t :=
  mk col row obstacle_type.

End Obstacle.

Module Collectible.

Definition GEM_VALUES : gmap str Z :=
  list_to_map
    [ (lit "ruby", 10); (lit "emerald", 15); (lit "sapphire", 20);
      (lit "gold", 25); (lit "diamond", 50) ].

Record t := mk {
  grid_col : Z;
  grid_row : Z;
  gem_type : str;
  value : Z;
  collected : bool
}.

Definition __init__ (col row : Z) (gem_type : str) : t :=
  {| grid_col := col;
     grid_row := row;
     gem_type := gem_type;
     value := default 10 (GEM_VALUES !! gem_type);
     collected := false |}.

Definition set_collected (b : bool) (gem : t) : t :=
  {| grid_col := grid_col gem;
     grid_row := grid_row gem;
     gem_type := gem_type gem;
     value := value gem;
     collected := b |}.

End Collectible.

Module Player.
Import Settings.

Record t := mk {
  grid_col : Z;
  grid_row : Z;
  x : Q;
  y : Q;
  target_x : Q;
  target_y : Q;
  is_moving : bool;
  direction : Direction.t;
  move_speed : Q;
  is_spinning : bool;
  spin_timer : Z;
  is_dancing : bool;
  dance_timer : Z;
  obstacles : list Obstacle.t;
  eye_direction : Direction.t
}.

Definition _grid_to_pixel_x (col : Z) : Z :=
  GAME_AREA_X + col * TILE_SIZE + TILE_SIZE / 2.

Definition _grid_to_pixel_y (row : Z) : Z :=
  GAME_AREA_Y + row * TILE_SIZE + TILE_SIZE / 2.

Definition __init__ (col row : Z) (obstacles : list Obstacle.t) : t :=
  {| grid_col := col;
     grid_row := row;
     x := inject_Z (_grid_to_pixel_x col);
     y := inject_Z (_grid_to_pixel_y row);
     target_x := inject_Z (_grid_to_pixel_x col);
     target_y := inject_Z (_grid_to_pixel_y row);
     is_moving := false;
     direction := Direction.NONE;
     move_speed := inject_Z PLAYER_MOVE_SPEED;
     is_spinning := false;
     spin_timer := 0;
     is_dancing := false;
     dance_timer := 0;
     obstacles := obstacles;
     eye_direction := Direction.NONE |}.

Fixpoint any_obstacle_at (obs : list Obstacle.t) (col row : Z) : bool :=
  match obs with
  | [] => false
  | obstacle :: rest =>
      if (Obstacle.grid_col obstacle =? col) && (Obstacle.grid_row obstacle =? row)
      then true
      else any_obstacle_at rest col row
  end.

Definition _is_blocked (p : t) (col row : Z) : bool :=
  any_obstacle_at (obstacles p) col row.

(** The test [0 <= new_col < GRID_COLS and 0 <= new_row < GRID_ROWS]. *)
Definition in_grid (col row : Z) : bool :=
  (0 <=? col) && (col <? GRID_COLS) && (0 <=? row) && (row <? GRID_ROWS).

Definition busy (p : t) : bool :=
  is_moving p || is_spinning p || is_dancing p.

Definition _try_move (dx dy : Z) (d : Direction.t) (p : t) : bool * t :=
  if busy p then (false, p)
  else
    let new_col := grid_col p + dx in
    let new_row := grid_row p + dy in
    if negb (in_grid new_col new_row) then (false, p)
    else if _is_blocked p new_col new_row then (false, p)
    else
      (true,
       {| grid_col := new_col;
          grid_row := new_row;
          x := x p;
          y := y p;
          target_x := inject_Z (_grid_to_pixel_x new_col);
          target_y := inject_Z (_grid_to_pixel_y new_row);
          is_moving := true;
          direction := d;
          move_speed := move_speed p;
          is_spinning := is_spinning p;
          spin_timer := spin_timer p;
          is_dancing := is_dancing p;
          dance_timer := dance_timer p;
          obstacles := obstacles p;
          eye_direction := d |}).

Definition move_right : t -> bool * t := _try_move 1 0 Direction.RIGHT.
Definition move_left : t -> bool * t := _try_move (-1) 0 Direction.LEFT.
Definition move_up : t -> bool * t := _try_move 0 (-1) Direction.UP.
Definition move_down : t -> bool * t := _try_move 0 1 Direction.DOWN.

Definition spin (p : t) : bool * t :=
  if busy p then (false, p)
  else
    (true,
     {| grid_col := grid_col p; grid_row := grid_row p;
        x := x p; y := y p; target_x := target_x p; target_y := target_y p;
        is_moving := is_moving p; direction := direction p;
        move_speed := move_speed p;
        is_spinning := true;
        spin_timer := 0;
        is_dancing := is_dancing p; dance_timer := dance_timer p;
        obstacles := obstacles p; eye_direction := eye_direction p |}).

Definition dance (p : t) : bool * t :=
  if busy p then (false, p)
  else
    (true,
     {| grid_col := grid_col p; grid_row := grid_row p;
        x := x p; y := y p; target_x := target_x p; target_y := target_y p;
        is_moving := is_moving p; direction := direction p;
        move_speed := move_speed p;
        is_spinning := is_spinning p; spin_timer := spin_timer p;
        is_dancing := true;
        dance_timer := 0;
        obstacles := obstacles p; eye_direction := eye_direction p |}).

Section Update.
Context {R : Py.Runtime}.

(** The movement part of [update]: snap to the target when it is closer
    than one step, else one step of [move_speed] pixels towards it. *)
Definition update_moving (p : t) : t :=
  if is_moving p then
    let dx := (target_x p - x p)%Q in
    let dy := (target_y p - y p)%Q in
    let distance := Py.sqrt (dx ^ 2 + dy ^ 2)%Q in
    if Qlt_le_dec distance (move_speed p) then
      {| grid_col := grid_col p; grid_row := grid_row p;
         x := target_x p;
         y := target_y p;
         target_x := target_x p; target_y := target_y p;
         is_moving := false;
         direction := Direction.NONE;
         move_speed := move_speed p;
         is_spinning := is_spinning p; spin_timer := spin_timer p;
         is_dancing := is_dancing p; dance_timer := dance_timer p;
         obstacles := obstacles p; eye_direction := eye_direction p |}
    else
      {| grid_col := grid_col p; grid_row := grid_row p;
         x := (x p + (dx / distance) * move_speed p)%Q;
         y := (y p + (dy / distance) * move_speed p)%Q;
         target_x := target_x p; target_y := target_y p;
         is_moving := is_moving p; direction := direction p;
         move_speed := move_speed p;
         is_spinning := is_spinning p; spin_timer := spin_timer p;
         is_dancing := is_dancing p; dance_timer := dance_timer p;
         obstacles := obstacles p; eye_direction := eye_direction p |}
  else p.

Definition update_spinning (p : t) : t :=
  if is_spinning p then
    let timer := spin_timer p + 1 in
    let done := 30 <=? timer in
    {| grid_col := grid_col p; grid_row := grid_row p;
       x := x p; y := y p; target_x := target_x p; target_y := target_y p;
       is_moving := is_moving p; direction := direction p;
       move_speed := move_speed p;
       is_spinning := negb done;
       spin_timer := if done then 0 else timer;
       is_dancing := is_dancing p; dance_timer := dance_timer p;
       obstacles := obstacles p; eye_direction := eye_direction p |}
  else p.

Definition update_dancing (p : t) : t :=
  if is_dancing p then
    let timer := dance_timer p + 1 in
    let done := 60 <=? timer in
    {| grid_col := grid_col p; grid_row := grid_row p;
       x := x p; y := y p; target_x := target_x p; target_y := target_y p;
       is_moving := is_moving p; direction := direction p;
       move_speed := move_speed p;
       is_spinning := is_spinning p; spin_timer := spin_timer p;
       is_dancing := negb done;
       dance_timer := if done then 0 else timer;
       obstacles := obstacles p; eye_direction := eye_direction p |}
  else p.

Definition update (dt : Z) (p : t) : t :=
  update_dancing (update_spinning (update_moving p)).

End Update.

Definition reset_position (p : t) : t :=
  {| grid_col := PLAYER_START_COL;
     grid_row := PLAYER_START_ROW;
     x := inject_Z (_grid_to_pixel_x PLAYER_START_COL);
     y := inject_Z (_grid_to_pixel_y PLAYER_START_ROW);
     target_x := inject_Z (_grid_to_pixel_x PLAYER_START_COL);
     target_y := inject_Z (_grid_to_pixel_y PLAYER_START_ROW);
     is_moving := false;
     direction := Direction.NONE;
     move_speed := move_speed p;
     is_spinning := false;
     spin_timer := spin_timer p;
     is_dancing := false;
     dance_timer := dance_timer p;
     obstacles := obstacles p;
     eye_direction := eye_direction p |}.

End Player.

Module Hero.

(** The wrapper the console commands address. Its [_player] is the player
    of the game, passed to each method next to the wrapper's own field. *)
Record t := mk { _last_command_result : option str }.

Definition __init__ : t := mk None.

(** The body shared by the four [move_*] methods, which differ in the
    method of the player they call and in two messages. *)
Definition report_move (moved : bool * Player.t) (started blocked : str)
  : str * Player.t * t :=
  let '(ok, p) := moved in
  if ok then (started, p, mk (Some started))
  else
    let msg :=
      if Player.is_moving p then (lit "Wait! Still moving...")
      else if Player.is_spinning p || Player.is_dancing p
      then (lit "Wait! Hero is busy performing...")
      else blocked in
    (msg, p, mk (Some msg)).

Definition move_right (p : Player.t) (h : t) : str * Player.t * t :=
  report_move (Player.move_right p)
    (lit "Moving right! " ++ [0xE2; 0x2020; 0x2019]%N) (lit "Can't move right - blocked!").

Definition move_left (p : Player.t) (h : t) : str * Player.t * t :=
  report_move (Player.move_left p)
    (lit "Moving left! " ++ [0xE2; 0x2020]%N) (lit "Can't move left - blocked!").

Definition move_up (p : Player.t) (h : t) : str * Player.t * t :=
  report_move (Player.move_up p)
    (lit "Moving up! " ++ [0xE2; 0x2020; 0x2018]%N) (lit "Can't move up - blocked!").

Definition move_down (p : Player.t) (h : t) : str * Player.t * t :=
  report_move (Player.move_down p)
    (lit "Moving down! " ++ [0xE2; 0x2020; 0x201C]%N) (lit "Can't move down - blocked!").

(** [say(message)]: the f-string formats whatever object it is given. *)
Definition say (message : Py.value) (p : Player.t) (h : t)
  : str * Player.t * t :=
  let msg := (lit "Hero says: " ++ [34]%N) ++ Py.to_str message ++ [34]%N in
  (msg, p, mk (Some msg)).

Definition say_default : Py.value := Py.PyStr (lit "Hello!").

Definition spin (p : Player.t) (h : t) : str * Player.t * t :=
  let '(ok, p') := Player.spin p in
  let msg := if ok then (lit "Wheeeee! " ++ [0xF0; 0x178; 0x152; 0x20AC]%N) else (lit "Can't spin right now!") in
  (msg, p', mk (Some msg)).

Definition dance (p : Player.t) (h : t) : str * Player.t * t :=
  let '(ok, p') := Player.dance p in
  let msg := if ok then ([0xF0; 0x178; 0x2019; 0x192]%N ++ lit " Dancing! " ++ [0xF0; 0x178; 0x2022; 0xBA]%N) else (lit "Can't dance right now!") in
  (msg, p', mk (Some msg)).

Definition jump (p : Player.t) (h : t) : str * Player.t * t :=
  let msg := (lit "Jump! " ++ [0xF0; 0x178; 0xA6; 0x2DC]%N ++ lit " (Visual coming soon...)") in
  (msg, p, mk (Some msg)).

Definition attack (p : Player.t) (h : t) : str * Player.t * t :=
  let msg := (lit "Attack! " ++ [0xE2; 0x161; 0x201D; 0xEF; 0xB8]%N ++ lit " (Combat coming soon...)") in
  (msg, p, mk (Some msg)).

Definition defend (p : Player.t) (h : t) : str * Player.t * t :=
  let msg := (lit "Defend! " ++ [0xF0; 0x178; 0x203A; 0xA1; 0xEF; 0xB8]%N ++ lit " (Combat coming soon...)") in
  (msg, p, mk (Some msg)).

Definition collect (p : Player.t) (h : t) : str * Player.t * t :=
  let msg := (lit "Looking for items... (Use auto-collect by walking!)") in
  (msg, p, mk (Some msg)).

(** The methods of the class, as [getattr] finds them by name. The other
    attributes of a [Hero] object (its two fields and what every object
    has) bear names outside the list of valid methods, and the interpreter
    looks up no other name. *)
Inductive method :=
| Move_right | Move_left | Move_up | Move_down
| Say | Spin | Dance | Jump | Attack | Defend | Collect.

Definition methods : list (str * method) :=
  [ ((lit "move_right"), Move_right); ((lit "move_left"), Move_left);
    ((lit "move_up"), Move_up); ((lit "move_down"), Move_down);
    ((lit "say"), Say); ((lit "spin"), Spin); ((lit "dance"), Dance); ((lit "jump"), Jump);
    ((lit "attack"), Attack); ((lit "defend"), Defend); ((lit "collect"), Collect) ].

Fixpoint assoc {A} (name : str) (table : list (str * A)) : option A :=
  match table with
  | [] => None
  | (k, v) :: rest => if Py.str_eqb k name then Some v else assoc name rest
  end.

Definition getattr (name : str) : option method := assoc name methods.

Definition hasattr (name : str) : bool :=
  match getattr name with Some _ => true | None => false end.

(** A bound method without parameters, called with [args]. *)
Definition call0 (f : Player.t -> t -> str * Player.t * t)
    (args : list Py.value) (p : Player.t) (h : t)
  : (Py.PyExc + str) * Player.t * t :=
  match args with
  | [] => let '(r, p', h') := f p h in (inr r, p', h')
  | _ :: _ => (inl Py.TypeError, p, h)
  end.

(** Calling a bound method: a call with more arguments than the method has
    parameters raises [TypeError] before the body runs. *)
Definition call (m : method) (args : list Py.value) (p : Player.t) (h : t)
  : (Py.PyExc + str) * Player.t * t :=
  match m with
  | Move_right => call0 move_right args p h
  | Move_left => call0 move_left args p h
  | Move_up => call0 move_up args p h
  | Move_down => call0 move_down args p h
  | Spin => call0 spin args p h
  | Dance => call0 dance args p h
  | Jump => call0 jump args p h
  | Attack => call0 attack args p h
  | Defend => call0 defend args p h
  | Collect => call0 collect args p h
  | Say =>
      match args with
      | [] => let '(r, p', h') := say say_default p h in (inr r, p', h')
      | [message] => let '(r, p', h') := say message p h in (inr r, p', h')
      | _ => (inl Py.TypeError, p, h)
      end
  end.

End Hero.

(** ** ui.py *)

Module Console.
Import Settings.

Record OutputLine := mkLine {
  text : str;
  color : Color;
  line_type : str
}.

(** The output log. The input line, its cursor and the command history
    are the matter of [Input] below: a submitted line reaches the game
    through [Game._handle_command]. *)
Record t := mk { output_lines : list OutputLine }.

(** The loop [while len(self.output_lines) > CONSOLE_MAX_OUTPUT_LINES + 20:
    self.output_lines.pop(0)]. *)
Fixpoint limit (lines : list OutputLine) : list OutputLine :=
  match lines with
  | [] => []
  | _ :: rest =>
      if (CONSOLE_MAX_OUTPUT_LINES + 20 <? length lines)%nat
      then limit rest
      else lines
  end.

Definition add_output (text : str) (color : Color) (line_type : str) (c : t)
  : t :=
  mk (limit (output_lines c ++ [mkLine text color line_type])).

Definition normal : str := (lit "normal").

Definition add_success (text : str) : t -> t :=
  add_output (([0x2713]%N ++ lit " ") ++ text) COLOR_SUCCESS (lit "success").

Definition add_error (text : str) : t -> t :=
  add_output (([0x2717]%N ++ lit " ") ++ text) COLOR_ERROR (lit "error").

Definition add_info (text : str) : t -> t :=
  add_output (([0x2139]%N ++ lit " ") ++ text) COLOR_ACCENT (lit "info").

(** Several calls in a row, the first of the list first. *)
Definition run (steps : list (t -> t)) (c : t) : t :=
  fold_left (fun c step => step c) steps c.

(** [command.replace('hero.', '').replace('()', '').strip()] *)
Definition stripped_cmd (command : str) : str :=
  Py.strip (Py.replace (lit "()") [] (Py.replace (lit "hero.") [] command)).

Definition add_educational_error (command error_type : str) (c : t) : t :=
  let c := add_output [] COLOR_TEXT_MUTED normal c in
  let c :=
    match METHOD_SUGGESTIONS !! stripped_cmd command with
    | Some suggestion =>
        run [ add_error (lit "Oops! That's not quite right.");
              add_output ((lit "  Did you mean: hero.") ++ suggestion ++ (lit "() ?"))
                COLOR_WARNING normal;
              add_output (lit "  Tip: Python is picky about spelling!")
                COLOR_TEXT_MUTED normal ] c
    | None =>
        if Py.str_eqb error_type (lit "syntax") then
          run [ add_error (lit "Syntax Error!");
                add_output (lit "  Check your parentheses () and dots .")
                  COLOR_WARNING normal;
                add_output (lit "  Example: hero.move_right()")
                  COLOR_SUCCESS normal ] c
        else if Py.str_eqb error_type (lit "unknown_method") then
          run [ add_error (lit "Unknown command!");
                add_output (lit "  The hero doesn't know how to do that.")
                  COLOR_WARNING normal;
                add_output (lit "  Try: move_right, move_left, move_up, move_down")
                  COLOR_TEXT_MUTED normal ] c
        else if Py.str_eqb error_type (lit "name") then
          run [ add_error (lit "Name not recognized!");
                add_output (lit "  Did you forget 'hero.' at the start?")
                  COLOR_WARNING normal;
                add_output (lit "  Commands must start with 'hero.'")
                  COLOR_TEXT_MUTED normal ] c
        else
          run [ add_error (lit "Something went wrong!");
                add_output (lit "  Try a command like: hero.move_right()")
                  COLOR_WARNING normal ] c
    end in
  add_output [] COLOR_TEXT_MUTED normal c.

Definition _add_welcome_message : t -> t :=
  run [ add_output ([0x2554]%N ++ repeat 0x2550%N 38 ++ [0x2557]%N) COLOR_ACCENT normal;
        add_output ([0x2551]%N ++ lit "   Welcome to PyVenture Console!     " ++ [0x2551]%N) COLOR_ACCENT normal;
        add_output ([0x255A]%N ++ repeat 0x2550%N 38 ++ [0x255D]%N) COLOR_ACCENT normal;
        add_output [] COLOR_TEXT_MUTED normal;
        add_output (lit "Control the hero with Python commands:") COLOR_TEXT_SECONDARY normal;
        add_output (lit "  hero.move_right()") COLOR_SUCCESS normal;
        add_output (lit "  hero.move_left()") COLOR_SUCCESS normal;
        add_output (lit "  hero.move_up()") COLOR_SUCCESS normal;
        add_output (lit "  hero.move_down()") COLOR_SUCCESS normal;
        add_output [] COLOR_TEXT_MUTED normal;
        add_output (lit "Press " ++ [0x2191]%N ++ lit "/" ++ [0x2193]%N ++ lit " to browse command history") COLOR_TEXT_MUTED normal;
        add_output (repeat 0x2500%N 40) (take 3 COLOR_CONSOLE_BORDER) normal ].

Definition __init__ : t := _add_welcome_message (mk []).

(** [clear()]: the log is emptied and the welcome message written again. *)
Definition clear (c : t) : t := _add_welcome_message (mk []).

End Console.

(** ** game.py *)

Module Challenge.

Record t := mk {
  title : str;
  description : str;
  target_col : Z;
  target_row : Z;
  reward : Z;
  completed : bool
}.

Definition __init__ (title description : str) (target_col target_row reward : Z)
  : t :=
  mk title description target_col target_row reward false.

Definition set_completed (b : bool) (ch : t) : t :=
  mk (title ch) (description ch) (target_col ch) (target_row ch) (reward ch) b.

Definition check_completion (player_col player_row : Z) (ch : t) : bool * t :=
  if (player_col =? target_col ch) && (player_row =? target_row ch)
  then (true, set_completed true ch)
  else (false, ch).

End Challenge.

Module Game.
Import Settings.

(** The session. [player] is the object the [hero] wraps; [obstacles] is
    the list the player holds as [Player.obstacles]. *)
Record t := mk {
  obstacles : list Obstacle.t;
  collectibles : list Collectible.t;
  player : Player.t;
  hero : Hero.t;
  console : Console.t;
  score : Z;
  gems_collected : Z;
  commands_executed : Z;
  successful_moves : Z;
  challenges : list Challenge.t;
  current_challenge_idx : nat;
  challenges_completed : Z
}.

Definition set_console (c : Console.t) (g : t) : t :=
  mk (obstacles g) (collectibles g) (player g) (hero g) c (score g)
     (gems_collected g) (commands_executed g) (successful_moves g)
     (challenges g) (current_challenge_idx g) (challenges_completed g).

Definition set_actor (p : Player.t) (h : Hero.t) (g : t) : t :=
  mk (obstacles g) (collectibles g) p h (console g) (score g)
     (gems_collected g) (commands_executed g) (successful_moves g)
     (challenges g) (current_challenge_idx g) (challenges_completed g).

Definition _create_obstacles : list Obstacle.t :=
  map (fun '(col, row, obs_type) => Obstacle.__init__ col row obs_type)
    [ (2, 2, (lit "rock")); (2, 3, (lit "rock")); (3, 6, (lit "crate")); (4, 6, (lit "crate"));
      (7, 2, (lit "bush")); (8, 2, (lit "bush")); (9, 5, (lit "rock")); (10, 5, (lit "rock"));
      (6, 4, (lit "crate")) ].

Definition gem_positions : list (Z * Z * str) :=
  [ (1, 1, (lit "ruby")); (10, 1, (lit "sapphire")); (0, 7, (lit "emerald"));
    (11, 8, (lit "gold")); (6, 7, (lit "diamond")); (3, 3, (lit "ruby")); (8, 5, (lit "emerald")) ].

Definition _create_collectibles (obstacles : list Obstacle.t)
  : list Collectible.t :=
  let blocked_positions : gset (Z * Z) :=
    {[ (5, 4) ]} ∪
    list_to_set
      (map (fun obs => (Obstacle.grid_col obs, Obstacle.grid_row obs)) obstacles) in
  flat_map
    (fun '(col, row, gem_type) =>
       if bool_decide ((col, row) ∉ blocked_positions)
       then [Collectible.__init__ col row gem_type]
       else [])
    gem_positions.

Definition _create_challenges : list Challenge.t :=
  [ Challenge.__init__ (lit "First Steps") (lit "Move to the ruby gem at (1, 1)!") 1 1 25;
    Challenge.__init__ (lit "Adventure Awaits") (lit "Find the diamond at (6, 7)!") 6 7 50;
    Challenge.__init__ (lit "Explorer") (lit "Reach the corner at (11, 8)!") 11 8 75 ].

Definition _show_current_challenge (g : t) : t :=
  match challenges g !! current_challenge_idx g with
  | Some challenge =>
      set_console
        (Console.run
           [ Console.add_output [] COLOR_TEXT_MUTED Console.normal;
             Console.add_output ([0x1F3AF]%N ++ lit " NEW CHALLENGE!") COLOR_WARNING Console.normal;
             Console.add_output ((lit "   ") ++ Challenge.title challenge)
               COLOR_ACCENT Console.normal;
             Console.add_output ((lit "   ") ++ Challenge.description challenge)
               COLOR_TEXT_SECONDARY Console.normal;
             Console.add_output
               ((lit "   Reward: ") ++ Py.str_of_Z (Challenge.reward challenge)
                  ++ (lit " points"))
               COLOR_SUCCESS Console.normal;
             Console.add_output [] COLOR_TEXT_MUTED Console.normal ]
           (console g))
        g
  | None => g
  end.

(** [Game.__init__], the session at startup. *)
Definition __init__ : t :=
  let obstacles := _create_obstacles in
  _show_current_challenge
    {| obstacles := obstacles;
       collectibles := _create_collectibles obstacles;
       player := Player.__init__ PLAYER_START_COL PLAYER_START_ROW obstacles;
       hero := Hero.__init__;
       console := Console.__init__;
       score := 0;
       gems_collected := 0;
       commands_executed := 0;
       successful_moves := 0;
       challenges := _create_challenges;
       current_challenge_idx := 0;
       challenges_completed := 0 |}.

Definition _show_help (g : t) : t :=
  set_console
    (Console.run
       [ Console.add_output [] COLOR_TEXT_MUTED Console.normal;
         Console.add_output ([0x1F4D6]%N ++ lit " Available Commands:") COLOR_ACCENT Console.normal;
         Console.add_output (lit "  hero.move_right()  - Move right")
           COLOR_TEXT_SECONDARY Console.normal;
         Console.add_output (lit "  hero.move_left()   - Move left")
           COLOR_TEXT_SECONDARY Console.normal;
         Console.add_output (lit "  hero.move_up()     - Move up")
           COLOR_TEXT_SECONDARY Console.normal;
         Console.add_output (lit "  hero.move_down()   - Move down")
           COLOR_TEXT_SECONDARY Console.normal;
         Console.add_output (lit "  hero.spin()        - Spin around")
           COLOR_TEXT_SECONDARY Console.normal;
         Console.add_output (lit "  hero.dance()       - Do a dance")
           COLOR_TEXT_SECONDARY Console.normal;
         Console.add_output (lit "  hero.say('text')   - Speak")
           COLOR_TEXT_SECONDARY Console.normal;
         Console.add_output [] COLOR_TEXT_MUTED Console.normal;
         Console.add_output ([0x1F4D6]%N ++ lit " Special Commands:") COLOR_ACCENT Console.normal;
         Console.add_output (lit "  help  - Show this help")
           COLOR_TEXT_SECONDARY Console.normal;
         Console.add_output (lit "  hint  - Get a hint")
           COLOR_TEXT_SECONDARY Console.normal;
         Console.add_output (lit "  clear - Clear console")
           COLOR_TEXT_SECONDARY Console.normal;
         Console.add_output [] COLOR_TEXT_MUTED Console.normal ]
       (console g))
    g.

Definition _show_hint (g : t) : t :=
  match challenges g !! current_challenge_idx g with
  | None =>
      set_console
        (Console.add_info (lit "All challenges complete! Try collecting all gems.")
           (console g))
        g
  | Some challenge =>
      let dx := Challenge.target_col challenge - Player.grid_col (player g) in
      let dy := Challenge.target_row challenge - Player.grid_row (player g) in
      let hints :=
        (if 0 <? dx then [(lit "Move right ") ++ Py.str_of_Z dx ++ (lit " times")]
         else if dx <? 0
         then [(lit "Move left ") ++ Py.str_of_Z (Z.abs dx) ++ (lit " times")]
         else [])
        ++
        (if 0 <? dy then [(lit "Move down ") ++ Py.str_of_Z dy ++ (lit " times")]
         else if dy <? 0
         then [(lit "Move up ") ++ Py.str_of_Z (Z.abs dy) ++ (lit " times")]
         else []) in
      set_console
        (Console.run
           ([ Console.add_output [] COLOR_TEXT_MUTED Console.normal;
              Console.add_output ([0x1F4A1]%N ++ lit " Hint:") COLOR_WARNING Console.normal ]
            ++ map
                 (fun hint =>
                    Console.add_output ((lit "   ") ++ hint)
                      COLOR_TEXT_SECONDARY Console.normal)
                 hints
            ++ [ Console.add_output (lit "   (Watch out for obstacles!)")
                   COLOR_TEXT_MUTED Console.normal;
                 Console.add_output [] COLOR_TEXT_MUTED Console.normal ])
           (console g))
        g
  end.

Definition _reset_game (g : t) : t :=
  _show_current_challenge
    {| obstacles := obstacles g;
       collectibles := _create_collectibles (obstacles g);
       player := Player.reset_position (player g);
       hero := hero g;
       console :=
         Console.add_info (lit "Game reset! Ready for new adventure.")
           (Console.clear (console g));
       score := 0;
       gems_collected := 0;
       commands_executed := 0;
       successful_moves := 0;
       challenges := map (Challenge.set_completed false) (challenges g);
       current_challenge_idx := 0;
       challenges_completed := 0 |}.

Section WithRuntime.
Context {R : Py.Runtime}.

(** The loop of [_check_collections] over the gems; the state it threads
    is the collected count, the score and the console. *)
Fixpoint collect_gems (player_col player_row : Z) (gems : list Collectible.t)
    (st : Z * Z * Console.t) : list Collectible.t * (Z * Z * Console.t) :=
  match gems with
  | [] => ([], st)
  | gem :: rest =>
      if negb (Collectible.collected gem)
         && (Collectible.grid_col gem =? player_col)
         && (Collectible.grid_row gem =? player_row)
      then
        let '(count, score, console) := st in
        let st' :=
          (count + 1, score + Collectible.value gem,
           Console.add_success
             ((lit "Collected ") ++ Py.title (Collectible.gem_type gem) ++ (lit " gem! +")
                ++ Py.str_of_Z (Collectible.value gem) ++ (lit " points"))
             console) in
        let '(rest', st'') := collect_gems player_col player_row rest st' in
        (Collectible.set_collected true gem :: rest', st'')
      else
        let '(rest', st') := collect_gems player_col player_row rest st in
        (gem :: rest', st')
  end.

Definition _check_collections (g : t) : t :=
  let player_col := Player.grid_col (player g) in
  let player_row := Player.grid_row (player g) in
  let '(gems, (count, score', console')) :=
    collect_gems player_col player_row (collectibles g)
      (gems_collected g, score g, console g) in
  mk (obstacles g) gems (player g) (hero g) console' score' count
     (commands_executed g) (successful_moves g) (challenges g)
     (current_challenge_idx g) (challenges_completed g).

Definition _check_challenge (g : t) : t :=
  match challenges g !! current_challenge_idx g with
  | None => g
  | Some challenge =>
      if Challenge.completed challenge then g
      else
        let '(done, challenge') :=
          Challenge.check_completion
            (Player.grid_col (player g)) (Player.grid_row (player g))
            challenge in
        if done then
          let console1 :=
            Console.run
              [ Console.add_output [] COLOR_TEXT_MUTED Console.normal;
                Console.add_output ([0x1F3C6]%N ++ lit " CHALLENGE COMPLETE!")
                  COLOR_SUCCESS Console.normal;
                Console.add_output
                  ((lit "   ") ++ Challenge.title challenge' ++ (lit " finished!"))
                  COLOR_ACCENT Console.normal;
                Console.add_output
                  ((lit "   +") ++ Py.str_of_Z (Challenge.reward challenge')
                     ++ (lit " bonus points!"))
                  COLOR_WARNING Console.normal ]
              (console g) in
          let idx := S (current_challenge_idx g) in
          let g1 :=
            {| obstacles := obstacles g;
               collectibles := collectibles g;
               player := player g;
               hero := hero g;
               console := console1;
               score := score g + Challenge.reward challenge';
               gems_collected := gems_collected g;
               commands_executed := commands_executed g;
               successful_moves := successful_moves g;
               challenges :=
                 <[current_challenge_idx g := challenge']> (challenges g);
               current_challenge_idx := idx;
               challenges_completed := challenges_completed g + 1 |} in
          if (idx <? length (challenges g1))%nat then _show_current_challenge g1
          else
            set_console
              (Console.run
                 [ Console.add_output [] COLOR_TEXT_MUTED Console.normal;
                   Console.add_output ([0x1F389]%N ++ lit " ALL CHALLENGES COMPLETE!")
                     COLOR_SUCCESS Console.normal;
                   Console.add_output (lit "   You are a true Code Warrior!")
                     COLOR_ACCENT Console.normal ]
                 (console g1))
              g1
        else g
  end.

(** One frame of the game loop: [_update(dt)]. *)
Definition _update (dt : Z) (g : t) : t :=
  _check_challenge
    (_check_collections
       (set_actor (Player.update dt (player g)) (hero g) g)).

(** The maximal run of word characters at the head of [s], and the rest. *)
Fixpoint span_word (s : str) : str * str :=
  match s with
  | c :: s' =>
      if Py.is_word c then let '(w, rest) := span_word s' in (c :: w, rest)
      else ([], s)
  | [] => ([], [])
  end.

(** What follows the opening parenthesis in the pattern: as many characters
    other than a newline as possible (the second group), then a closing
    parenthesis at the end of the string or before a newline that ends it. *)
Definition match_args (r : str) : option str :=
  let body := if Py.endswith [10%N] r then removelast r else r in
  if Py.endswith [41%N] body && negb (existsb (N.eqb 10) (removelast body))
  then Some (removelast body)
  else None.

(** [re.match(pattern, command)] and its two groups: the pattern asks for
    [hero.], one or more word characters (the first group), an opening
    parenthesis and the arguments up to the closing one. *)
Definition match_call (command : str) : option (str * str) :=
  if Py.startswith (lit "hero.") command then
    let '(method_name, rest) := span_word (drop 5 command) in
    match method_name, rest with
    | _ :: _, 40%N :: r =>
        match match_args r with
        | Some args => Some (method_name, args)
        | None => None
        end
    | _, _ => None
    end
  else None.

Definition is_quoted (q : N) (s : str) : bool :=
  Py.startswith [q] s && Py.endswith [q] s.

(** The call of a method of the hero on the actor of the game. *)
Definition call_hero (m : Hero.method) (args : list Py.value) (g : t)
  : (Py.PyExc + option str) * t :=
  match Hero.call m args (player g) (hero g) with
  | (inr result, p, h) => (inr (Some result), set_actor p h g)
  | (inl exc, _, _) => (inl exc, g)
  end.

Definition _execute_hero_command (command : str) (g : t)
  : (Py.PyExc + option str) * t :=
  if Py.str_eqb command [] then (inr None, g)
  else if negb (Py.startswith (lit "hero.") command)
  then (inl (Py.NameError (lit "Command must start with 'hero.'")), g)
  else
    match match_call command with
    | None => (inl (Py.SyntaxError (lit "Invalid command syntax")), g)
    | Some (method_name, group2) =>
        let args_str := Py.strip group2 in
        let valid_methods :=
          VALID_HERO_METHODS ++ [(lit "spin"); (lit "dance"); (lit "collect")] in
        if bool_decide (method_name ∉ valid_methods)
        then (inl (Py.AttributeError ((lit "Unknown method: ") ++ method_name)), g)
        else
          match Hero.getattr method_name with
          | None =>
              (inl (Py.AttributeError
                      ((lit "Method not implemented: ") ++ method_name)), g)
          | Some method =>
              if negb (Py.str_eqb args_str []) then
                if is_quoted 34 args_str
                then call_hero method [Py.PyStr (Py.slice_1_m1 args_str)] g
                else if is_quoted 39 args_str
                then call_hero method [Py.PyStr (Py.slice_1_m1 args_str)] g
                else
                  match Py.eval args_str with
                  | Some arg =>
                      match call_hero method [arg] g with
                      | (inr result, g') => (inr result, g')
                      | (inl _, _) =>
                          (inl (Py.SyntaxError (lit "Invalid argument")), g)
                      end
                  | None => (inl (Py.SyntaxError (lit "Invalid argument")), g)
                  end
              else call_hero method [] g
          end
    end.

Definition bump_commands (g : t) : t :=
  mk (obstacles g) (collectibles g) (player g) (hero g) (console g) (score g)
     (gems_collected g) (commands_executed g + 1) (successful_moves g)
     (challenges g) (current_challenge_idx g) (challenges_completed g).

Definition bump_moves (g : t) : t :=
  mk (obstacles g) (collectibles g) (player g) (hero g) (console g) (score g)
     (gems_collected g) (commands_executed g) (successful_moves g + 1)
     (challenges g) (current_challenge_idx g) (challenges_completed g).

(** The error type [_handle_command] passes to the console for an
    exception of [_execute_hero_command]. *)
Definition error_type (exc : Py.PyExc) : str :=
  match exc with
  | Py.SyntaxError _ => (lit "syntax")
  | Py.NameError _ => (lit "name")
  | Py.AttributeError _ => (lit "unknown_method")
  | Py.TypeError => (lit "unknown")
  end.

Definition _handle_command (command : str) (g : t) : t :=
  let g := bump_commands g in
  let command := Py.strip command in
  if Py.str_eqb command [] then g
  else if Py.str_eqb (Py.lower command) (lit "help") then _show_help g
  else if Py.str_eqb (Py.lower command) (lit "clear")
  then set_console (Console.clear (console g)) g
  else if Py.str_eqb (Py.lower command) (lit "hint") then _show_hint g
  else
    match _execute_hero_command command g with
    | (inr (Some result), g') =>
        if negb (Py.str_eqb result []) then
          let g' := set_console (Console.add_success result (console g')) g' in
          if Py.contains (lit "Moving") result then bump_moves g' else g'
        else g'
    | (inr None, g') => g'
    | (inl exc, g') =>
        set_console
          (Console.add_educational_error command (error_type exc) (console g'))
          g'
    end.

(** What the game loop brings to a session: a submitted line, a frame, or
    the reset key. *)
Inductive event :=
| Command (text : str)
| Tick (dt : Z)
| Reset.

Definition step (g : t) (e : event) : t :=
  match e with
  | Command text => _handle_command text g
  | Tick dt => _update dt g
  | Reset => _reset_game g
  end.

Definition run (events : list event) (g : t) : t := fold_left step events g.

End WithRuntime.

End Game.

(** ** ui.py: the input line of the console *)

(** The keys the program tells apart; [K_OTHER] is any other key. *)
Module Key.
Inductive t :=
| K_RETURN | K_BACKSPACE | K_DELETE | K_LEFT | K_RIGHT | K_UP | K_DOWN
| K_HOME | K_END | K_ESCAPE | K_F5 | K_OTHER.
End Key.

(** An event of pygame: the closing of the window, a key pressed, with the
    text it produces, or any other event. *)
Inductive Event :=
| QUIT
| KEYDOWN (key : Key.t) (unicode : str)
| OTHER.

(** The input side of the class [Console]: the line being typed, its
    cursor and the history of the submitted commands. The output log of the
    same object is [Console.t]; the game holds it. *)
Module Input.

(** The printable characters beyond ASCII, from the Unicode database. *)
Class Unicode := { uni_printable : N -> bool }.

(** [s.isprintable()] *)
Definition isprintable `{Unicode} (s : str) : bool :=
  forallb
    (fun c =>
       if (c <? 128)%N then (32 <=? c)%N && (c <=? 126)%N
       else uni_printable c)
    s.

(** The bound of a slice: a negative index counts from the end, and an
    index outside of the sequence is brought back to its nearest end. *)
Definition bound (n : nat) (k : Z) : nat :=
  Z.to_nat
    (Z.min (Z.of_nat n) (Z.max 0 (if k <? 0 then k + Z.of_nat n else k))).

(** [s[:k]] *)
Definition slice_to {A} (k : Z) (s : list A) : list A :=
  take (bound (length s) k) s.

(** [s[k:]] *)
Definition slice_from {A} (k : Z) (s : list A) : list A :=
  drop (bound (length s) k) s.

(** [l[i]]; [None] stands for [IndexError]. *)
Definition item {A} (l : list A) (i : Z) : option A :=
  let i := if i <? 0 then i + Z.of_nat (length l) else i in
  if i <? 0 then None else l !! Z.to_nat i.

(** [len(s)] *)
Definition len {A} (s : list A) : Z := Z.of_nat (length s).

(** settings.py *)
Definition CONSOLE_MAX_HISTORY : Z := 50.
Definition CURSOR_BLINK_INTERVAL : Z := 500.

Record t := mk {
  input_text : str;
  cursor_pos : Z;
  cursor_visible : bool;
  cursor_timer : Z;
  command_history : list str;
  history_index : Z;
  temp_input : str
}.

Definition __init__ : t :=
  {| input_text := [];
     cursor_pos := 0;
     cursor_visible := true;
     cursor_timer := 0;
     command_history := [];
     history_index := -1;
     temp_input := [] |}.

Definition prompt : str := lit ">>> ".

(** Assignments to the attributes. *)
Definition set_line (text : str) (pos : Z) (c : t) : t :=
  mk text pos (cursor_visible c) (cursor_timer c) (command_history c)
     (history_index c) (temp_input c).

Definition set_cursor_pos (pos : Z) (c : t) : t :=
  set_line (input_text c) pos c.

Definition set_blink (visible : bool) (timer : Z) (c : t) : t :=
  mk (input_text c) (cursor_pos c) visible timer (command_history c)
     (history_index c) (temp_input c).

Definition set_history_index (i : Z) (c : t) : t :=
  mk (input_text c) (cursor_pos c) (cursor_visible c) (cursor_timer c)
     (command_history c) i (temp_input c).

Definition set_temp_input (text : str) (c : t) : t :=
  mk (input_text c) (cursor_pos c) (cursor_visible c) (cursor_timer c)
     (command_history c) (history_index c) text.

Definition _handle_backspace (c : t) : t :=
  if 0 <? cursor_pos c then
    set_line
      (slice_to (cursor_pos c - 1) (input_text c)
       ++ slice_from (cursor_pos c) (input_text c))
      (cursor_pos c - 1) c
  else c.

Definition _handle_delete (c : t) : t :=
  if cursor_pos c <? len (input_text c) then
    set_line
      (slice_to (cursor_pos c) (input_text c)
       ++ slice_from (cursor_pos c + 1) (input_text c))
      (cursor_pos c) c
  else c.

Definition _move_cursor_left (c : t) : t :=
  if 0 <? cursor_pos c then set_cursor_pos (cursor_pos c - 1) c else c.

Definition _move_cursor_right (c : t) : t :=
  if cursor_pos c <? len (input_text c)
  then set_cursor_pos (cursor_pos c + 1) c
  else c.

(** The line becomes the command [index] steps back in the history, the
    cursor at its end; [None] when the history has no such entry. *)
Definition show_history (index : Z) (c : t) : option t :=
  match item (command_history c) (- (index + 1)) with
  | Some text => Some (set_line text (len text) (set_history_index index c))
  | None => None
  end.

Definition _navigate_history_up (c : t) : option t :=
  match command_history c with
  | [] => Some c
  | _ :: _ =>
      let c :=
        if history_index c =? -1 then set_temp_input (input_text c) c
        else c in
      if history_index c <? len (command_history c) - 1
      then show_history (history_index c + 1) c
      else Some c
  end.

Definition _navigate_history_down (c : t) : option t :=
  if 0 <? history_index c then show_history (history_index c - 1) c
  else if history_index c =? 0 then
    Some (set_line (temp_input c) (len (temp_input c))
            (set_history_index (-1) c))
  else Some c.

Definition _insert_character (char : str) (c : t) : t :=
  set_line
    (slice_to (cursor_pos c) (input_text c)
     ++ char ++ slice_from (cursor_pos c) (input_text c))
    (cursor_pos c + 1) c.

(** The history after [command] was submitted: a command equal to the last
    entry is not added again, and the oldest entry leaves when there are
    more than [CONSOLE_MAX_HISTORY]. *)
Definition remember (command : str) (history : list str) : list str :=
  if match last history with
     | None => true
     | Some latest => negb (Py.str_eqb latest command)
     end
  then
    let history := history ++ [command] in
    if CONSOLE_MAX_HISTORY <? len history then tail history else history
  else history.

(** [_execute_command] up to the call of [on_command]: the command, if
    there is one, the input line and the output log. *)
Definition submit (c : t) (log : Console.t)
  : option str * t * Console.t :=
  let command := Py.strip (input_text c) in
  if Py.str_eqb command [] then (None, c, log)
  else
    (Some command,
     {| input_text := [];
        cursor_pos := 0;
        cursor_visible := cursor_visible c;
        cursor_timer := cursor_timer c;
        command_history := remember command (command_history c);
        history_index := -1;
        temp_input := [] |},
     Console.add_output (prompt ++ command) Settings.COLOR_CONSOLE_PROMPT
       (lit "command") log).

(** [update(dt)]: the blinking of the cursor. *)
Definition update (dt : Z) (c : t) : t :=
  let timer := cursor_timer c + dt in
  if CURSOR_BLINK_INTERVAL <=? timer
  then set_blink (negb (cursor_visible c)) 0 c
  else set_blink (cursor_visible c) timer c.

End Input.

(** ** game.py: the game, its console and the loop *)

Module App.
Section WithRuntime.
Context {R : Py.Runtime} {U : Input.Unicode}.

(** The game with the input line of its console and the flags of the
    loop. *)
Record t := mk {
  game : Game.t;
  input : Input.t;
  running : bool;
  paused : bool
}.

Definition __init__ : t :=
  {| game := Game.__init__;
     input := Input.__init__;
     running := true;
     paused := false |}.

Definition set_game (g : Game.t) (a : t) : t :=
  mk g (input a) (running a) (paused a).

Definition set_input (c : Input.t) (a : t) : t :=
  mk (game a) c (running a) (paused a).

Definition set_running (b : bool) (a : t) : t :=
  mk (game a) (input a) b (paused a).

(** [Console._execute_command] of the console of the game, whose
    [on_command] is [Game._handle_command]. *)
Definition _execute_command (a : t) : option str * t :=
  match Input.submit (input a) (Game.console (game a)) with
  | (Some command, c, log) =>
      (Some command,
       set_game
         (Game._handle_command command (Game.set_console log (game a)))
         (set_input c a))
  | (None, _, _) => (None, a)
  end.

(** [Console.handle_event]: what it returns and the state it leaves;
    [None] stands for an [IndexError] that nothing catches. *)
Definition handle_event (event : Event) (a : t) : option (option str * t) :=
  match event with
  | KEYDOWN key unicode =>
      let a := set_input (Input.set_blink true 0 (input a)) a in
      let c := input a in
      let edited (c' : Input.t) : option (option str * t) :=
        Some (None, set_input c' a) in
      match key with
      | Key.K_RETURN => Some (_execute_command a)
      | Key.K_BACKSPACE => edited (Input._handle_backspace c)
      | Key.K_DELETE => edited (Input._handle_delete c)
      | Key.K_LEFT => edited (Input._move_cursor_left c)
      | Key.K_RIGHT => edited (Input._move_cursor_right c)
      | Key.K_UP =>
          match Input._navigate_history_up c with
          | Some c' => edited c'
          | None => None
          end
      | Key.K_DOWN =>
          match Input._navigate_history_down c with
          | Some c' => edited c'
          | None => None
          end
      | Key.K_HOME => edited (Input.set_cursor_pos 0 c)
      | Key.K_END =>
          edited (Input.set_cursor_pos (Input.len (Input.input_text c)) c)
      | _ =>
          if negb (Py.str_eqb unicode []) && Input.isprintable unicode
          then edited (Input._insert_character unicode c)
          else Some (None, a)
      end
  | _ => Some (None, a)
  end.

(** One turn of the loop of [_handle_events]. *)
Definition handle_one (event : Event) (a : t) : option t :=
  match event with
  | QUIT => Some (set_running false a)
  | KEYDOWN Key.K_ESCAPE _ => Some (set_running false a)
  | KEYDOWN Key.K_F5 _ => Some (set_game (Game._reset_game (game a)) a)
  | KEYDOWN _ _ =>
      match handle_event event a with
      | Some (_, a') => Some a'
      | None => None
      end
  | OTHER => Some a
  end.

Fixpoint _handle_events (events : list Event) (a : t) : option t :=
  match events with
  | [] => Some a
  | event :: rest =>
      match handle_one event a with
      | Some a' => _handle_events rest a'
      | None => None
      end
  end.

(** [_update(dt)]: the console, then the game. *)
Definition _update (dt : Z) (a : t) : t :=
  set_game (Game._update dt (game a))
    (set_input (Input.update dt (input a)) a).

(** One turn of the loop of [run]: [dt] is what the clock returns and
    [events] what [pygame.event.get()] does. *)
Definition frame (dt : Z) (events : list Event) (a : t) : option t :=
  match _handle_events events a with
  | Some a' => Some (if negb (paused a') then _update dt a' else a')
  | None => None
  end.

(** [run]: the loop goes on while [running] holds. *)
Fixpoint run (frames : list (Z * list Event)) (a : t) : option t :=
  match frames with
  | [] => Some a
  | (dt, events) :: rest =>
      if running a then
        match frame dt events a with
        | Some a' => run rest a'
        | None => None
        end
      else Some a
  end.

End WithRuntime.
End App.

(** ** A runtime to compute with *)

Module Sample.

(** A decimal literal without sign: digits, with no leading zero unless it
    is the single digit zero. *)
Fixpoint decimal (acc : N) (s : str) : option N :=
  match s with
  | [] => Some acc
  | c :: s' =>
      if Py.is_ascii_digit c then decimal (acc * 10 + (c - 48))%N s' else None
  end.

Definition literal (s : str) : option Z :=
  match s with
  | [] => None
  | [48%N] => Some 0
  | 48%N :: _ => None
  | _ => option_map Z.of_N (decimal 0 s)
  end.

(** The terms of a sum, split at the plus signs. *)
Fixpoint terms (cur : str) (s : str) : list str :=
  match s with
  | [] => [rev cur]
  | c :: s' => if (c =? 43)%N then rev cur :: terms [] s' else terms (c :: cur) s'
  end.

Fixpoint sum_terms (ts : list str) : option Z :=
  match ts with
  | [] => Some 0
  | t :: rest =>
      match literal (Py.strip t), sum_terms rest with
      | Some a, Some b => Some (a + b)
      | _, _ => None
      end
  end.

(** The part of [eval] that adds decimal literals, and the two booleans. *)
Definition eval_sum (s : str) : option Py.value :=
  if Py.str_eqb s (lit "True") then Some (Py.PyBool true)
  else if Py.str_eqb s (lit "False") then Some (Py.PyBool false)
  else option_map Py.PyInt (sum_terms (terms [] s)).

(** The square root on perfect squares, as the axis-aligned moves of the
    game ask for it. *)
Definition sqrt_floor (q : Q) : Q := inject_Z (Z.sqrt (Qfloor q)).

(** ASCII text only: no character beyond ASCII is alphanumeric or cased. *)
#[export] Instance runtime : Py.Runtime := {|
  Py.uni_alnum := fun _ => false;
  Py.uni_lower := fun c => [c];
  Py.uni_title := fun c => [c];
  Py.uni_cased := fun _ => false;
  Py.eval := eval_sum;
  Py.sqrt := sqrt_floor
|}.

End Sample.

(** A database for the sample runs: no printable character beyond ASCII. *)
Module SampleKeys.

#[export] Instance unicode : Input.Unicode :=
  {| Input.uni_printable := fun _ => false |}.


End SampleKeys.

(** ** The vocabulary of the properties *)

(** The four directional requests, with the method of [Player] and of
    [Hero] each one names. *)
Module Move.

Inductive t := Up | Down | Left | Right.

Definition delta (m : t) : Z * Z :=
  match m with
  | Up => (0, -1)
  | Down => (0, 1)
  | Left => (-1, 0)
  | Right => (1, 0)
  end.

Definition direction (m : t) : Direction.t :=
  match m with
  | Up => Direction.UP
  | Down => Direction.DOWN
  | Left => Direction.LEFT
  | Right => Direction.RIGHT
  end.

Definition player (m : t) : Player.t -> bool * Player.t :=
  match m with
  | Up => Player.move_up
  | Down => Player.move_down
  | Left => Player.move_left
  | Right => Player.move_right
  end.

Definition hero (m : t) : Player.t -> Hero.t -> str * Player.t * Hero.t :=
  match m with
  | Up => Hero.move_up
  | Down => Hero.move_down
  | Left => Hero.move_left
  | Right => Hero.move_right
  end.

(** The cell next to the player in the direction of the request. *)
Definition towards (m : t) (p : Player.t) : Z * Z :=
  (Player.grid_col p + fst (delta m), Player.grid_row p + snd (delta m)).

End Move.

(** How a reader of the console tells the answers to a move request apart:
    by the words they start with. *)
Inductive outcome := Started | Busy | Blocked | Other.

Definition classify (msg : str) : outcome :=
  if Py.startswith (lit "Moving ") msg then Started
  else if Py.startswith (lit "Wait!") msg then Busy
  else if Py.startswith (lit "Can't move ") msg then Blocked
  else Other.

(** The reasons the specification wants a rejected move to carry. *)
Inductive rejection := OutOfBounds | Occupied | ActorBusy.

(** A move request issued while idle fails for one of two causes. *)
Definition out_of_bounds (m : Move.t) (p : Player.t) : Prop :=
  Player.in_grid (Move.towards m p).1 (Move.towards m p).2 = false.

Definition occupied (m : Move.t) (p : Player.t) : Prop :=
  Player.in_grid (Move.towards m p).1 (Move.towards m p).2 = true /\
  Player._is_blocked p (Move.towards m p).1 (Move.towards m p).2 = true.

(** The answers of the hero tell the two causes apart: some reading of the
    message gives each failure its own reason. *)
Definition failures_distinguished : Prop :=
  exists reason : str -> rejection,
    forall (m : Move.t) (p : Player.t) (h : Hero.t),
      Player.busy p = false ->
      (out_of_bounds m p -> reason (Move.hero m p h).1.1 = OutOfBounds) /\
      (occupied m p -> reason (Move.hero m p h).1.1 = Occupied).

(** The message of a blocked move, by direction. *)
Definition blocked_message (m : Move.t) : str :=
  match m with
  | Move.Up => lit "Can't move up - blocked!"
  | Move.Down => lit "Can't move down - blocked!"
  | Move.Left => lit "Can't move left - blocked!"
  | Move.Right => lit "Can't move right - blocked!"
  end.

(** The lines the console shows for a known misspelling, and for a command
    that lacks the [hero.] prefix. *)
Definition did_you_mean (canonical : str) : list (Console.t -> Console.t) :=
  [ Console.add_output [] Settings.COLOR_TEXT_MUTED Console.normal;
    Console.add_error (lit "Oops! That's not quite right.");
    Console.add_output ((lit "  Did you mean: hero.") ++ canonical ++ (lit "() ?"))
      Settings.COLOR_WARNING Console.normal;
    Console.add_output (lit "  Tip: Python is picky about spelling!")
      Settings.COLOR_TEXT_MUTED Console.normal;
    Console.add_output [] Settings.COLOR_TEXT_MUTED Console.normal ].

Definition namespace_hint : list (Console.t -> Console.t) :=
  [ Console.add_output [] Settings.COLOR_TEXT_MUTED Console.normal;
    Console.add_error (lit "Name not recognized!");
    Console.add_output (lit "  Did you forget 'hero.' at the start?")
      Settings.COLOR_WARNING Console.normal;
    Console.add_output (lit "  Commands must start with 'hero.'")
      Settings.COLOR_TEXT_MUTED Console.normal;
    Console.add_output [] Settings.COLOR_TEXT_MUTED Console.normal ].

Section Commands.
Context {R : Py.Runtime}.

(** A submitted line that is not empty, is none of the reserved words and
    does not start with the prefix of the hero. *)
Definition missing_namespace (command : str) : Prop :=
  Py.strip command <> [] /\
  (Py.lower (Py.strip command) ∉ [(lit "help"); (lit "clear"); (lit "hint")]) /\
  Py.startswith (lit "hero.") (Py.strip command) = false.

(** Handling [command] adds exactly [lines] to the console. *)
Definition shows (lines : list (Console.t -> Console.t)) (command : str)
    (g : Game.t) : Prop :=
  Game.console (Game._handle_command command g)
  = Console.run lines (Game.console g).

End Commands.

(** What a session has achieved: everything but the actor, the console
    and the two counters of commands. *)
Definition progress (g : Game.t)
  : list Obstacle.t * list Collectible.t * Z * Z * list Challenge.t * nat * Z :=
  (Game.obstacles g, Game.collectibles g, Game.score g, Game.gems_collected g,
   Game.challenges g, Game.current_challenge_idx g, Game.challenges_completed g).







(** A walk of the session at startup to the ruby at (3, 3): two moves to
    the left and one up, each given the frames its animation takes. *)
Module Scenario.

Definition frames (n : nat) : list Game.event := repeat (Game.Tick 16) n.




(** One move and the frames of its animation. *)
Definition move (command : str) : list Game.event :=
  Game.Command command :: frames 9.



(** To (1, 1), the target of the first challenge. *)
Definition walk_to_first_target : list Game.event :=
  move (lit "hero.move_up()") ++ move (lit "hero.move_up()") ++ move (lit "hero.move_up()")
  ++ move (lit "hero.move_left()") ++ move (lit "hero.move_left()")
  ++ move (lit "hero.move_left()") ++ move (lit "hero.move_left()").

Definition at_first_target : Game.t :=
  Game.run (R := Sample.runtime) walk_to_first_target Game.__init__.

End Scenario.

(** ** More vocabulary *)



(** [n] frames of the player alone. *)
Definition frames_of_player `{R : Py.Runtime} (n : nat) (p : Player.t)
  : Player.t :=
  Nat.iter n (Player.update 16) p.




(** The player with its spin, or its dance, set to a given stage. *)
Definition with_spin (on : bool) (timer : Z) (p : Player.t) : Player.t :=
  {| Player.grid_col := Player.grid_col p;
     Player.grid_row := Player.grid_row p;
     Player.x := Player.x p; Player.y := Player.y p;
     Player.target_x := Player.target_x p;
     Player.target_y := Player.target_y p;
     Player.is_moving := Player.is_moving p;
     Player.direction := Player.direction p;
     Player.move_speed := Player.move_speed p;
     Player.is_spinning := on;
     Player.spin_timer := timer;
     Player.is_dancing := Player.is_dancing p;
     Player.dance_timer := Player.dance_timer p;
     Player.obstacles := Player.obstacles p;
     Player.eye_direction := Player.eye_direction p |}.

Definition with_dance (on : bool) (timer : Z) (p : Player.t) : Player.t :=
  {| Player.grid_col := Player.grid_col p;
     Player.grid_row := Player.grid_row p;
     Player.x := Player.x p; Player.y := Player.y p;
     Player.target_x := Player.target_x p;
     Player.target_y := Player.target_y p;
     Player.is_moving := Player.is_moving p;
     Player.direction := Player.direction p;
     Player.move_speed := Player.move_speed p;
     Player.is_spinning := Player.is_spinning p;
     Player.spin_timer := Player.spin_timer p;
     Player.is_dancing := on;
     Player.dance_timer := timer;
     Player.obstacles := Player.obstacles p;
     Player.eye_direction := Player.eye_direction p |}.


(** ** The input line: vocabulary *)

(** The cursor is within the line. *)
Definition in_line (c : Input.t) : Prop :=
  0 <= Input.cursor_pos c <= Input.len (Input.input_text c).

(** No two neighbours of the list are equal. *)
Fixpoint no_stutter (history : list str) : Prop :=
  match history with
  | a :: (b :: _) as rest => a <> b /\ no_stutter rest
  | _ => True
  end.

(** The history holds at most [CONSOLE_MAX_HISTORY] commands, none of them
    empty, none the same as the one before it, and the index of the
    browsing is -1 or that of one of them. *)
Definition history_ok (c : Input.t) : Prop :=
  -1 <= Input.history_index c < Input.len (Input.command_history c) /\
  Input.len (Input.command_history c) <= Input.CONSOLE_MAX_HISTORY /\
  Forall (fun command => command <> []) (Input.command_history c) /\
  no_stutter (Input.command_history c).

Definition well_formed (c : Input.t) : Prop := in_line c /\ history_ok c.

(** The keys for the characters of [text] pressed one after the other. *)
Definition type_text (text : str) (c : Input.t) : Input.t :=
  fold_left (fun c ch => Input._insert_character [ch] c) text c.

(** The key of [f] pressed [n] times; [None] when one of them fails. *)
Fixpoint press (f : Input.t -> option Input.t) (n : nat) (c : Input.t)
  : option Input.t :=
  match n with
  | O => Some c
  | S n' =>
      match f c with
      | Some c' => press f n' c'
      | None => None
      end
  end.

(** The line of [c] while its history is browsed: [text] is shown with
    the cursor at its end, [index] steps back, and the text that was typed
    is kept aside. *)
Definition shown (c : Input.t) (text : str) (index : Z) : Input.t :=
  Input.mk text (Input.len text) (Input.cursor_visible c)
    (Input.cursor_timer c) (Input.command_history c) index
    (Input.input_text c).



(** ** The animation of a move: vocabulary *)

(** The square root of the runtime is exact on the squares of the
    integers, as that of the floating-point numbers is. *)
Definition exact_on_squares `{R : Py.Runtime} : Prop :=
  forall (n : Z) (q : Q),
    0 <= n -> (q == inject_Z (n * n))%Q -> (Py.sqrt q == inject_Z n)%Q.

(** The player is drawn at the centre of its cell and moves at the speed
    of the settings. *)
Definition centred (p : Player.t) : Prop :=
  Player.x p = inject_Z (Player._grid_to_pixel_x (Player.grid_col p)) /\
  Player.y p = inject_Z (Player._grid_to_pixel_y (Player.grid_row p)) /\
  Player.move_speed p = inject_Z Settings.PLAYER_MOVE_SPEED.

(** The player is [k] steps into the animation of a move by [(dx, dy)]
    from the cell [(col, row)]. *)
Definition gliding (col row dx dy k : Z) (p : Player.t) : Prop :=
  Player.is_moving p = true /\
  Player.is_spinning p = false /\
  Player.is_dancing p = false /\
  Player.target_x p = inject_Z (Player._grid_to_pixel_x (col + dx)) /\
  Player.target_y p = inject_Z (Player._grid_to_pixel_y (row + dy)) /\
  Player.move_speed p = inject_Z Settings.PLAYER_MOVE_SPEED /\
  (Player.x p
   == inject_Z
        (Player._grid_to_pixel_x col + Settings.PLAYER_MOVE_SPEED * k * dx))%Q /\
  (Player.y p
   == inject_Z
        (Player._grid_to_pixel_y row + Settings.PLAYER_MOVE_SPEED * k * dy))%Q.

(** ** The movement state machine *)

(** C1. A move request from an idle actor towards the adjacent cell
    [(col, row)], inside the board and free of obstacles, succeeds: the
    player reports that the movement started, the hero answers with the
    message of a started move, and the grid position is [(col, row)] at
    once, while the pixel position is still the one before the request and
    only the target of the animation is the centre of the new cell. *)
Theorem move_request_to_free_cell_succeeds
    (m : Move.t) (p : Player.t) (h : Hero.t) (col row : Z) :
  Player.busy p = false ->
  Move.towards m p = (col, row) ->
  Player.in_grid col row = true ->
  Player._is_blocked p col row = false ->
  exists p' msg h',
    Move.player m p = (true, p') /\
    Move.hero m p h = (msg, p', h') /\
    classify msg = Started /\
    Player.grid_col p' = col /\
    Player.grid_row p' = row /\
    Player.is_moving p' = true /\
    Player.direction p' = Move.direction m /\
    Player.x p' = Player.x p /\
    Player.y p' = Player.y p /\
    Player.target_x p' = inject_Z (Player._grid_to_pixel_x col) /\
    Player.target_y p' = inject_Z (Player._grid_to_pixel_y row).
Proof.
  intros Hidle Hcell Hin Hfree.
  unfold Move.towards in Hcell.
  destruct m; simpl in Hcell; injection Hcell as <- <-;
    unfold Move.player, Move.hero,
      Hero.move_up, Hero.move_down, Hero.move_left, Hero.move_right,
      Player.move_up, Player.move_down, Player.move_left, Player.move_right,
      Player._try_move;
    rewrite Hidle, Hin, Hfree; simpl;
    do 3 eexists; repeat split; reflexivity.
Qed.

Lemma move_request_to_free_cell_succeeds_witness :
  exists p' msg h',
    Move.player Move.Left (Game.player Game.__init__) = (true, p') /\
    Move.hero Move.Left (Game.player Game.__init__) Hero.__init__
      = (msg, p', h') /\
    classify msg = Started /\
    Player.grid_col p' = 4 /\
    Player.grid_row p' = 4 /\
    Player.is_moving p' = true /\
    Player.direction p' = Direction.LEFT /\
    Player.x p' = Player.x (Game.player Game.__init__) /\
    Player.y p' = Player.y (Game.player Game.__init__) /\
    Player.target_x p' = inject_Z (Player._grid_to_pixel_x 4) /\
    Player.target_y p' = inject_Z (Player._grid_to_pixel_y 4).
Proof.
  apply (move_request_to_free_cell_succeeds
           Move.Left (Game.player Game.__init__) Hero.__init__ 4 4);
    reflexivity.
Defined.

(** The failure answer of a hero's move, read off the state the player is
    left in. *)
Lemma report_move_refused (p : Player.t) (started blocked : str) :
  Hero.report_move (false, p) started blocked
  = (if Player.is_moving p then lit "Wait! Still moving..."
     else if Player.is_spinning p || Player.is_dancing p
          then lit "Wait! Hero is busy performing..."
          else blocked,
     p,
     Hero.mk
       (Some (if Player.is_moving p then lit "Wait! Still moving..."
              else if Player.is_spinning p || Player.is_dancing p
                   then lit "Wait! Hero is busy performing..."
                   else blocked))).
Proof. reflexivity. Qed.

Lemma try_move_busy (dx dy : Z) (d : Direction.t) (p : Player.t) :
  Player.busy p = true -> Player._try_move dx dy d p = (false, p).
Proof. intros Hbusy. unfold Player._try_move. now rewrite Hbusy. Qed.

(** C2. A move request issued while the actor is moving, spinning or
    dancing is refused: the player is returned as it was (grid position,
    target and action state included), and the hero answers with one of the
    two busy messages, which a reader tells apart from the answer to a
    blocked move. *)
Theorem move_request_while_busy_rejected
    (m : Move.t) (p : Player.t) (h : Hero.t) :
  Player.busy p = true ->
  Move.player m p = (false, p) /\
  exists msg,
    Move.hero m p h = (msg, p, Hero.mk (Some msg)) /\
    msg = (if Player.is_moving p then lit "Wait! Still moving..."
           else lit "Wait! Hero is busy performing...") /\
    classify msg = Busy /\
    classify msg <> Blocked.
Proof.
  intros Hbusy.
  assert (Hplayer : Move.player m p = (false, p))
    by (destruct m; apply try_move_busy, Hbusy).
  split; [exact Hplayer|].
  exists (if Player.is_moving p then lit "Wait! Still moving..."
          else lit "Wait! Hero is busy performing...").
  split.
  - unfold Player.busy in Hbusy.
    destruct m; simpl in Hplayer |- *;
      unfold Hero.move_up, Hero.move_down, Hero.move_left, Hero.move_right;
      rewrite Hplayer, report_move_refused;
      destruct (Player.is_moving p); [reflexivity| |reflexivity|
        |reflexivity| |reflexivity|];
      simpl in Hbusy; rewrite Hbusy; reflexivity.
  - destruct (Player.is_moving p); repeat split; discriminate.
Qed.

Lemma move_request_while_busy_rejected_witness :
  let p := (Player.move_left (Game.player Game.__init__)).2 in
  Move.player Move.Up p = (false, p) /\
  exists msg,
    Move.hero Move.Up p Hero.__init__ = (msg, p, Hero.mk (Some msg)) /\
    msg = (if Player.is_moving p then lit "Wait! Still moving..."
           else lit "Wait! Hero is busy performing...") /\
    classify msg = Busy /\
    classify msg <> Blocked.
Proof.
  apply (move_request_while_busy_rejected
           Move.Up (Player.move_left (Game.player Game.__init__)).2
           Hero.__init__).
  reflexivity.
Defined.

Lemma try_move_refused (m : Move.t) (p : Player.t) :
  Player.busy p = false ->
  out_of_bounds m p \/ occupied m p ->
  Move.player m p = (false, p).
Proof.
  intros Hidle Hcause.
  unfold out_of_bounds, occupied, Move.towards in Hcause.
  destruct m; simpl in Hcause |- *;
    unfold Player.move_up, Player.move_down, Player.move_left,
      Player.move_right, Player._try_move;
    rewrite Hidle;
    destruct Hcause as [Hout | [Hin Hblocked]];
    try (rewrite Hout; reflexivity);
    rewrite Hin, Hblocked; reflexivity.
Qed.

(** C3 (as the code has it). A move request issued while idle towards a
    cell outside the board or occupied by an obstacle fails and leaves the
    player as it was; in both cases the hero gives the one answer of a
    blocked move in that direction, which differs from the busy answers. *)
Theorem move_request_refused_when_blocked
    (m : Move.t) (p : Player.t) (h : Hero.t) :
  Player.busy p = false ->
  out_of_bounds m p \/ occupied m p ->
  Move.player m p = (false, p) /\
  Move.hero m p h = (blocked_message m, p, Hero.mk (Some (blocked_message m))) /\
  classify (blocked_message m) = Blocked.
Proof.
  intros Hidle Hcause.
  pose proof (try_move_refused m p Hidle Hcause) as Hplayer.
  split; [exact Hplayer|].
  split; [|destruct m; reflexivity].
  unfold Player.busy in Hidle.
  destruct (Player.is_moving p) eqn:Hmov; [discriminate|].
  simpl in Hidle.
  destruct m; simpl in Hplayer |- *;
    unfold Hero.move_up, Hero.move_down, Hero.move_left, Hero.move_right;
    rewrite Hplayer, report_move_refused, Hmov, Hidle; reflexivity.
Qed.

Lemma move_request_refused_when_blocked_witness :
  let p := Game.player Game.__init__ in
  Move.player Move.Right p = (false, p) /\
  Move.hero Move.Right p Hero.__init__
    = (blocked_message Move.Right, p,
       Hero.mk (Some (blocked_message Move.Right))) /\
  classify (blocked_message Move.Right) = Blocked.
Proof.
  apply (move_request_refused_when_blocked
           Move.Right (Game.player Game.__init__) Hero.__init__).
  - reflexivity.
  - right. split; reflexivity.
Defined.

(** C3 (as stated) fails: at the right edge of the board and next to the
    crate at (6, 4), a move to the right gets the same answer, so no
    reading of the answer tells out of bounds from occupied. *)
Lemma failures_not_distinguished : ~ failures_distinguished.
Proof.
  intros [reason Hreason].
  pose (edge := Player.__init__ 11 4 Game._create_obstacles).
  pose (wall := Player.__init__ 5 4 Game._create_obstacles).
  destruct (Hreason Move.Right edge Hero.__init__ eq_refl) as [Hout _].
  destruct (Hreason Move.Right wall Hero.__init__ eq_refl) as [_ Hocc].
  specialize (Hout eq_refl).
  specialize (Hocc (conj eq_refl eq_refl)).
  change ((Move.hero Move.Right wall Hero.__init__).1.1)
    with ((Move.hero Move.Right edge Hero.__init__).1.1) in Hocc.
  congruence.
Qed.

(** ** The command interpreter *)

Lemma endswith_snoc (c d : N) (s : str) :
  Py.endswith [c] (s ++ [d]) = (c =? d)%N.
Proof.
  unfold Py.endswith. rewrite rev_unit. simpl. apply andb_true_r.
Qed.

(** The arguments of a call that closes on its last character. *)
Lemma match_args_closed (e : str) :
  existsb (N.eqb 10) e = false -> Game.match_args (e ++ [41%N]) = Some e.
Proof.
  intros Hline. unfold Game.match_args.
  rewrite endswith_snoc.
  change (10 =? 41)%N with false. cbv iota.
  rewrite endswith_snoc, removelast_last, Hline. reflexivity.
Qed.

(** Replace a literal by the list of its characters. *)
Ltac spell text :=
  let chars := eval vm_compute in text in
  change text with chars in *.

Lemma str_eqb_false (a b : str) : a <> b -> Py.str_eqb a b = false.
Proof. intros Hne. unfold Py.str_eqb. now apply bool_decide_eq_false. Qed.

Lemma str_eqb_true (a : str) : Py.str_eqb a a = true.
Proof. unfold Py.str_eqb. now apply bool_decide_eq_true. Qed.

(** C4 (what the code does instead). An argument that is no quoted string
    is handed to [eval] as it stands, and whatever [eval] returns for it is
    passed to the method: [hero.say(e)] answers with the value of the
    expression [e]. *)
Theorem bare_argument_is_evaluated `{R : Py.Runtime}
    (e : str) (v : Py.value) (g : Game.t) :
  Py.strip e = e ->
  e <> [] ->
  existsb (N.eqb 10) e = false ->
  Game.is_quoted 34 e = false ->
  Game.is_quoted 39 e = false ->
  Py.eval e = Some v ->
  let answer := lit "Hero says: " ++ [34%N] ++ Py.to_str v ++ [34%N] in
  Game._execute_hero_command (lit "hero.say(" ++ e ++ lit ")") g
  = (inr (Some answer),
     Game.set_actor (Game.player g) (Hero.mk (Some answer)) g).
Proof.
  intros Hstrip Hne Hline Hdq Hsq Heval answer.
  assert (Hcall : Game.match_call (lit "hero.say(" ++ e ++ lit ")")
                  = Some (lit "say", e)).
  { unfold Game.match_call.
    spell (lit "hero.say("); spell (lit "hero."); spell (lit ")"); spell (lit "say").
    cbn -[Game.match_args].
    now rewrite match_args_closed. }
  unfold Game._execute_hero_command.
  rewrite Hcall, Hstrip.
  spell (lit "hero.say("); spell (lit "hero.").
  rewrite str_eqb_false by discriminate.
  cbn [Py.startswith app N.eqb Pos.eqb andb negb].
  spell (bool_decide
           (lit "say" ∉ Settings.VALID_HERO_METHODS
                          ++ [lit "spin"; lit "dance"; lit "collect"])).
  spell (Hero.getattr (lit "say")).
  cbv iota.
  rewrite (str_eqb_false e []) by exact Hne.
  rewrite Hdq, Hsq, Heval.
  reflexivity.
Qed.

Lemma bare_argument_is_evaluated_witness :
  Game._execute_hero_command (R := Sample.runtime)
    (lit "hero.say(1+1)") Game.__init__
  = (inr (Some (lit "Hero says: " ++ [34%N] ++ lit "2" ++ [34%N])),
     Game.set_actor (Game.player Game.__init__)
       (Hero.mk (Some (lit "Hero says: " ++ [34%N] ++ lit "2" ++ [34%N])))
       Game.__init__).
Proof.
  apply (bare_argument_is_evaluated (R := Sample.runtime)
           (lit "1+1") (Py.PyInt 2) Game.__init__);
    [reflexivity | discriminate | reflexivity ..].
Defined.



(** C6 (as the code has it). A submitted line that is not empty, is not a
    reserved word and lacks the [hero.] prefix is refused with [NameError],
    which the game passes to the console as [name]. The console shows the
    hint about the missing prefix, unless what is left of the line once
    [hero.] and [()] are removed is a key of the table of misspellings: the
    suggestion for that key is shown then. *)
Theorem missing_namespace_reported `{R : Py.Runtime}
    (command : str) (g : Game.t) :
  missing_namespace command ->
  Game._execute_hero_command (Py.strip command) (Game.bump_commands g)
  = (inl (Py.NameError (lit "Command must start with 'hero.'")),
     Game.bump_commands g) /\
  Game.error_type (Py.NameError (lit "Command must start with 'hero.'"))
  = lit "name" /\
  shows
    match Settings.METHOD_SUGGESTIONS !! Console.stripped_cmd (Py.strip command)
    with
    | Some canonical => did_you_mean canonical
    | None => namespace_hint
    end
    command g.
Proof.
  intros (Hne & Hreserved & Hprefix).
  apply not_elem_of_cons in Hreserved as [Hhelp Hreserved].
  apply not_elem_of_cons in Hreserved as [Hclear Hreserved].
  apply not_elem_of_cons in Hreserved as [Hhint _].
  assert (Hexec :
    Game._execute_hero_command (Py.strip command) (Game.bump_commands g)
    = (inl (Py.NameError (lit "Command must start with 'hero.'")),
       Game.bump_commands g)).
  { unfold Game._execute_hero_command.
    rewrite str_eqb_false by exact Hne.
    rewrite Hprefix. reflexivity. }
  split; [exact Hexec|]. split; [reflexivity|].
  unfold shows, Game._handle_command.
  rewrite (str_eqb_false (Py.strip command)) by exact Hne.
  rewrite !str_eqb_false by assumption.
  rewrite Hexec.
  unfold Console.add_educational_error, Game.error_type.
  destruct (Settings.METHOD_SUGGESTIONS !! _); reflexivity.
Qed.

Lemma missing_namespace_reported_witness :
  Game._execute_hero_command (R := Sample.runtime)
    (Py.strip (lit "move_right()")) (Game.bump_commands Game.__init__)
  = (inl (Py.NameError (lit "Command must start with 'hero.'")),
     Game.bump_commands Game.__init__) /\
  Game.error_type (Py.NameError (lit "Command must start with 'hero.'"))
  = lit "name" /\
  shows (R := Sample.runtime) namespace_hint (lit "move_right()") Game.__init__.
Proof.
  apply (missing_namespace_reported (R := Sample.runtime)
           (lit "move_right()") Game.__init__).
  split; [|split]; [vm_compute; discriminate| |reflexivity].
  intros Hin.
  repeat (apply elem_of_cons in Hin as [Hin | Hin];
          [vm_compute in Hin; discriminate|]).
  now apply elem_of_nil in Hin.
Defined.

(** C6 (as stated) fails: the line [right] lacks the prefix and is no
    reserved word, yet the console does not show the hint about the prefix;
    it suggests [hero.move_right()]. *)
Lemma typo_without_namespace_gets_no_namespace_hint :
  missing_namespace (R := Sample.runtime) (lit "right") /\
  ~ shows (R := Sample.runtime) namespace_hint (lit "right") Game.__init__ /\
  shows (R := Sample.runtime) (did_you_mean (lit "move_right")) (lit "right")
    Game.__init__.
Proof.
  split; [|split].
  - split; [|split]; [vm_compute; discriminate| |reflexivity].
    intros Hin.
    repeat (apply elem_of_cons in Hin as [Hin | Hin];
            [vm_compute in Hin; discriminate|]).
    now apply elem_of_nil in Hin.
  - unfold shows. intros Hsame. vm_compute in Hsame. discriminate Hsame.
  - vm_compute. reflexivity.
Qed.

(** ** The session tracker *)




Lemma show_hint_progress (g : Game.t) :
  progress (Game._show_hint g) = progress g.
Proof. unfold Game._show_hint. now case_match. Qed.

























Lemma show_current_challenge_console (g : Game.t) :
  exists c, Game._show_current_challenge g = Game.set_console c g.
Proof.
  unfold Game._show_current_challenge.
  destruct (Game.challenges g !! Game.current_challenge_idx g);
    [eexists; reflexivity|].
  exists (Game.console g). now destruct g.
Qed.

Lemma create_collectibles_uncollected (obstacles : list Obstacle.t) :
  Forall (fun gem => Collectible.collected gem = false)
    (Game._create_collectibles obstacles).
Proof.
  apply List.Forall_forall. intros gem Hin.
  unfold Game._create_collectibles in Hin.
  apply List.in_flat_map in Hin as ([[col row] gem_type] & _ & Hin).
  destruct (bool_decide _); simpl in Hin; [|contradiction].
  destruct Hin as [<-|[]]. reflexivity.
Qed.

(** C9. Whatever the session was, a reset leaves the score and the
    counters at zero, every challenge incomplete and the first one current,
    the gems those of a fresh session for the obstacles in place (all of
    them uncollected, and the very gems of the startup when the obstacles
    are those of the startup), the actor idle on its start cell with its
    pixel position and its target at the centre of that cell, and the
    obstacles, of the game and of the player, as they were. *)
Theorem reset_restores_session (g : Game.t) :
  Game.score (Game._reset_game g) = 0 /\
  Game.gems_collected (Game._reset_game g) = 0 /\
  Game.challenges_completed (Game._reset_game g) = 0 /\
  Game.commands_executed (Game._reset_game g) = 0 /\
  Game.successful_moves (Game._reset_game g) = 0 /\
  Game.challenges (Game._reset_game g)
  = map (Challenge.set_completed false) (Game.challenges g) /\
  Forall (fun ch => Challenge.completed ch = false)
    (Game.challenges (Game._reset_game g)) /\
  Game.current_challenge_idx (Game._reset_game g) = 0%nat /\
  Game.collectibles (Game._reset_game g)
  = Game._create_collectibles (Game.obstacles g) /\
  Forall (fun gem => Collectible.collected gem = false)
    (Game.collectibles (Game._reset_game g)) /\
  (Game.obstacles g = Game._create_obstacles ->
   Game.collectibles (Game._reset_game g) = Game.collectibles Game.__init__) /\
  Player.grid_col (Game.player (Game._reset_game g))
  = Settings.PLAYER_START_COL /\
  Player.grid_row (Game.player (Game._reset_game g))
  = Settings.PLAYER_START_ROW /\
  Player.x (Game.player (Game._reset_game g))
  = inject_Z (Player._grid_to_pixel_x Settings.PLAYER_START_COL) /\
  Player.y (Game.player (Game._reset_game g))
  = inject_Z (Player._grid_to_pixel_y Settings.PLAYER_START_ROW) /\
  Player.target_x (Game.player (Game._reset_game g))
  = Player.x (Game.player (Game._reset_game g)) /\
  Player.target_y (Game.player (Game._reset_game g))
  = Player.y (Game.player (Game._reset_game g)) /\
  Player.busy (Game.player (Game._reset_game g)) = false /\
  Player.direction (Game.player (Game._reset_game g)) = Direction.NONE /\
  Game.obstacles (Game._reset_game g) = Game.obstacles g /\
  Player.obstacles (Game.player (Game._reset_game g))
  = Player.obstacles (Game.player g).
Proof.
  unfold Game._reset_game.
  match goal with
  | |- context [Game._show_current_challenge ?g0] =>
      destruct (show_current_challenge_console g0) as [c ->]
  end.
  cbn [Game.set_console Game.score Game.gems_collected
       Game.challenges_completed Game.commands_executed Game.successful_moves
       Game.challenges Game.current_challenge_idx Game.collectibles
       Game.player Game.obstacles].
  repeat match goal with
         | |- _ /\ _ => split
         end; try reflexivity.
  - apply List.Forall_forall. intros ch Hin.
    apply List.in_map_iff in Hin as (ch0 & <- & _). reflexivity.
  - apply create_collectibles_uncollected.
  - intros ->. vm_compute. reflexivity.
Qed.

Lemma reset_restores_session_witness :
  Game.score Scenario.at_first_target = 35 /\
  Game.current_challenge_idx Scenario.at_first_target = 1%nat /\
  Game.score (Game._reset_game Scenario.at_first_target) = 0 /\
  Game.current_challenge_idx (Game._reset_game Scenario.at_first_target)
  = 0%nat /\
  Game.collectibles (Game._reset_game Scenario.at_first_target)
  = Game.collectibles Game.__init__.
Proof.
  pose proof (reset_restores_session Scenario.at_first_target)
    as (Hscore & _ & _ & _ & _ & _ & _ & Hidx & _ & _ & Hgems & _).
  split; [vm_compute; reflexivity|].
  split; [vm_compute; reflexivity|].
  split; [exact Hscore|]. split; [exact Hidx|].
  apply Hgems. vm_compute. reflexivity.
Defined.

(** C10. Whatever the actor is doing, [say], [jump], [attack], [defend]
    and [collect] answer with a message that is neither a busy nor a
    blocked answer, and return the player as it was: grid position, pixel
    position and action flags included. Submitted as commands, they are
    these very calls, and their answer is logged as a success. *)
Theorem non_movement_commands_always_answer `{R : Py.Runtime} :
  (forall (message : Py.value) (p : Player.t) (h : Hero.t),
     exists msg,
       Hero.say message p h = (msg, p, Hero.mk (Some msg)) /\
       msg <> [] /\ classify msg = Other) /\
  Forall
    (fun method : Player.t -> Hero.t -> str * Player.t * Hero.t =>
       forall (p : Player.t) (h : Hero.t),
       exists msg,
         method p h = (msg, p, Hero.mk (Some msg)) /\
         msg <> [] /\ classify msg = Other)
    [Hero.jump; Hero.attack; Hero.defend; Hero.collect] /\
  Forall
    (fun '(command, method) =>
       forall g : Game.t,
         Game._handle_command command g
         = let '(msg, p, h) := method (Game.player g) (Game.hero g) in
           Game.set_console
             (Console.add_success msg (Game.console g))
             (Game.set_actor p h (Game.bump_commands g)))
    [ (lit "hero.say()", Hero.say Hero.say_default);
      (lit "hero.say('hi')", Hero.say (Py.PyStr (lit "hi")));
      (lit "hero.jump()", Hero.jump);
      (lit "hero.attack()", Hero.attack);
      (lit "hero.defend()", Hero.defend);
      (lit "hero.collect()", Hero.collect) ].
Proof.
  split; [|split].
  - intros message p h. eexists. split; [reflexivity|].
    split; [discriminate|reflexivity].
  - repeat constructor; intros p h; eexists;
      (split; [reflexivity|split; [discriminate|reflexivity]]).
  - repeat constructor; intros g; vm_compute; reflexivity.
Qed.

(** ** The console log *)

Lemma limit_drop (lines : list Console.OutputLine) :
  Console.limit lines
  = drop (length lines - (Settings.CONSOLE_MAX_OUTPUT_LINES + 20)) lines.
Proof.
  induction lines as [|line rest IH]; [reflexivity|].
  cbn [Console.limit].
  destruct (Nat.ltb_spec (Settings.CONSOLE_MAX_OUTPUT_LINES + 20)
              (length (line :: rest))) as [Hlong|Hshort].
  - rewrite IH. cbn [length] in *.
    replace (S (length rest) - (Settings.CONSOLE_MAX_OUTPUT_LINES + 20))%nat
      with (S (length rest - (Settings.CONSOLE_MAX_OUTPUT_LINES + 20)))
      by lia.
    reflexivity.
  - replace (length (line :: rest)
             - (Settings.CONSOLE_MAX_OUTPUT_LINES + 20))%nat
      with 0%nat by lia.
    reflexivity.
Qed.

(** X1. Whatever the log held, after [add_output] it holds at most
    [CONSOLE_MAX_OUTPUT_LINES + 20] lines: the line just added, which is
    the last one, preceded by the most recent lines of the log before. *)
Theorem add_output_bounded
    (text : str) (color : Settings.Color) (line_type : str) (c : Console.t) :
  let line := Console.mkLine text color line_type in
  let after := Console.output_lines (Console.add_output text color line_type c) in
  (length after <= Settings.CONSOLE_MAX_OUTPUT_LINES + 20)%nat /\
  last after = Some line /\
  after
  = drop (length (Console.output_lines c)
          - (Settings.CONSOLE_MAX_OUTPUT_LINES + 19))
      (Console.output_lines c) ++ [line].
Proof.
  intros line after. subst after. unfold Console.add_output.
  cbn [Console.output_lines]. rewrite limit_drop.
  fold line.
  assert (Hdrop :
    drop (length (Console.output_lines c ++ [line])
          - (Settings.CONSOLE_MAX_OUTPUT_LINES + 20))
      (Console.output_lines c ++ [line])
    = drop (length (Console.output_lines c)
            - (Settings.CONSOLE_MAX_OUTPUT_LINES + 19))
        (Console.output_lines c) ++ [line]).
  { rewrite length_app. cbn [length].
    replace (length (Console.output_lines c) + 1
             - (Settings.CONSOLE_MAX_OUTPUT_LINES + 20))%nat
      with (length (Console.output_lines c)
            - (Settings.CONSOLE_MAX_OUTPUT_LINES + 19))%nat
      by (unfold Settings.CONSOLE_MAX_OUTPUT_LINES; lia).
    apply drop_app_le. lia. }
  rewrite Hdrop. split; [|split; [|reflexivity]].
  - rewrite length_app, length_drop. cbn [length].
    unfold Settings.CONSOLE_MAX_OUTPUT_LINES. lia.
  - apply last_snoc.
Qed.

(** ** The player *)


(** A frame leaves the cell, the target and the obstacles of the player
    as they are. *)
Lemma update_cell `{R : Py.Runtime} (dt : Z) (p : Player.t) :
  Player.grid_col (Player.update dt p) = Player.grid_col p /\
  Player.grid_row (Player.update dt p) = Player.grid_row p /\
  Player.target_x (Player.update dt p) = Player.target_x p /\
  Player.target_y (Player.update dt p) = Player.target_y p /\
  Player.obstacles (Player.update dt p) = Player.obstacles p.
Proof.
  assert (Hmoving : forall q,
    Player.grid_col (Player.update_moving q) = Player.grid_col q /\
    Player.grid_row (Player.update_moving q) = Player.grid_row q /\
    Player.target_x (Player.update_moving q) = Player.target_x q /\
    Player.target_y (Player.update_moving q) = Player.target_y q /\
    Player.obstacles (Player.update_moving q) = Player.obstacles q).
  { intros q. unfold Player.update_moving.
    destruct (Player.is_moving q); [destruct (Qlt_le_dec _ _)|];
      repeat split. }
  assert (Hspinning : forall q,
    Player.grid_col (Player.update_spinning q) = Player.grid_col q /\
    Player.grid_row (Player.update_spinning q) = Player.grid_row q /\
    Player.target_x (Player.update_spinning q) = Player.target_x q /\
    Player.target_y (Player.update_spinning q) = Player.target_y q /\
    Player.obstacles (Player.update_spinning q) = Player.obstacles q).
  { intros q. unfold Player.update_spinning.
    destruct (Player.is_spinning q); repeat split. }
  assert (Hdancing : forall q,
    Player.grid_col (Player.update_dancing q) = Player.grid_col q /\
    Player.grid_row (Player.update_dancing q) = Player.grid_row q /\
    Player.target_x (Player.update_dancing q) = Player.target_x q /\
    Player.target_y (Player.update_dancing q) = Player.target_y q /\
    Player.obstacles (Player.update_dancing q) = Player.obstacles q).
  { intros q. unfold Player.update_dancing.
    destruct (Player.is_dancing q); repeat split. }
  unfold Player.update.
  destruct (Hmoving p) as (Hc1 & Hr1 & Hx1 & Hy1 & Ho1).
  destruct (Hspinning (Player.update_moving p))
    as (Hc2 & Hr2 & Hx2 & Hy2 & Ho2).
  destruct (Hdancing (Player.update_spinning (Player.update_moving p)))
    as (Hc3 & Hr3 & Hx3 & Hy3 & Ho3).
  repeat split; congruence.
Qed.

Lemma update_idle `{R : Py.Runtime} (dt : Z) (p : Player.t) :
  Player.busy p = false -> Player.update dt p = p.
Proof.
  unfold Player.busy. intros Hidle.
  destruct (Player.is_moving p) eqn:Hmov; [discriminate|].
  destruct (Player.is_spinning p) eqn:Hspin; [discriminate|].
  destruct (Player.is_dancing p) eqn:Hdance; [discriminate|].
  unfold Player.update, Player.update_moving. rewrite Hmov.
  unfold Player.update_spinning. rewrite Hspin.
  unfold Player.update_dancing. now rewrite Hdance.
Qed.

(** X2. The animation never moves the player on the board: a frame leaves
    the grid position, the target of the animation and the obstacles as
    they are, whatever the player is doing; and a player that is neither
    moving, spinning nor dancing is left as it is altogether. *)
Theorem update_keeps_cell `{R : Py.Runtime} (dt : Z) (p : Player.t) :
  Player.grid_col (Player.update dt p) = Player.grid_col p /\
  Player.grid_row (Player.update dt p) = Player.grid_row p /\
  Player.target_x (Player.update dt p) = Player.target_x p /\
  Player.target_y (Player.update dt p) = Player.target_y p /\
  Player.obstacles (Player.update dt p) = Player.obstacles p /\
  (Player.busy p = false -> Player.update dt p = p).
Proof.
  destruct (update_cell dt p) as (Hcol & Hrow & Hx & Hy & Hobs).
  repeat split; try assumption. apply update_idle.
Qed.

Lemma update_keeps_cell_witness :
  Player.update (R := Sample.runtime) 16 (Game.player Game.__init__)
  = Game.player Game.__init__.
Proof.
  apply (update_keeps_cell (R := Sample.runtime) 16 (Game.player Game.__init__)).
  reflexivity.
Defined.

Lemma spin_cases (p : Player.t) :
  (Player.busy p = true /\ Player.spin p = (false, p)) \/
  (Player.busy p = false /\ Player.spin p = (true, with_spin true 0 p)).
Proof.
  unfold Player.spin. destruct (Player.busy p); [left|right]; now split.
Qed.

Lemma dance_cases (p : Player.t) :
  (Player.busy p = true /\ Player.dance p = (false, p)) \/
  (Player.busy p = false /\ Player.dance p = (true, with_dance true 0 p)).
Proof.
  unfold Player.dance. destruct (Player.busy p); [left|right]; now split.
Qed.

Lemma idle_flags (p : Player.t) :
  Player.busy p = false ->
  Player.is_moving p = false /\ Player.is_spinning p = false /\
  Player.is_dancing p = false.
Proof.
  unfold Player.busy.
  destruct (Player.is_moving p), (Player.is_spinning p),
    (Player.is_dancing p); intros Hidle; try discriminate; now repeat split.
Qed.

(** One frame of a player that only spins, before and at the end of the
    spin. *)
Lemma update_spinning_only `{R : Py.Runtime} (dt timer : Z) (p : Player.t) :
  Player.is_moving p = false ->
  Player.is_dancing p = false ->
  Player.update dt (with_spin true timer p)
  = if 30 <=? timer + 1 then with_spin false 0 p
    else with_spin true (timer + 1) p.
Proof.
  intros Hmov Hdance.
  unfold Player.update, Player.update_dancing, Player.update_spinning,
    Player.update_moving.
  unfold with_spin. cbn. rewrite Hmov. cbn. rewrite !Hdance.
  destruct (30 <=? timer + 1); reflexivity.
Qed.

Lemma update_dancing_only `{R : Py.Runtime} (dt timer : Z) (p : Player.t) :
  Player.is_moving p = false ->
  Player.is_spinning p = false ->
  Player.update dt (with_dance true timer p)
  = if 60 <=? timer + 1 then with_dance false 0 p
    else with_dance true (timer + 1) p.
Proof.
  intros Hmov Hspin.
  unfold Player.update, Player.update_dancing, Player.update_spinning,
    Player.update_moving.
  unfold with_dance. cbn. rewrite Hmov. cbn. rewrite !Hspin. cbn.
  destruct (60 <=? timer + 1); reflexivity.
Qed.

Lemma frames_succ `{R : Py.Runtime} (n : nat) (p : Player.t) :
  frames_of_player (S n) p = Player.update 16 (frames_of_player n p).
Proof. apply Nat.iter_succ. Qed.

Lemma spinning_frames `{R : Py.Runtime} (p : Player.t) (k : nat) :
  Player.is_moving p = false ->
  Player.is_dancing p = false ->
  (k < 30)%nat ->
  frames_of_player k (with_spin true 0 p) = with_spin true (Z.of_nat k) p.
Proof.
  intros Hmov Hdance.
  induction k as [|k IH]; intros Hk; [reflexivity|].
  unfold frames_of_player in *. rewrite Nat.iter_succ.
  rewrite IH by lia. rewrite update_spinning_only by assumption.
  destruct (Z.leb_spec 30 (Z.of_nat k + 1)); [lia|].
  f_equal. lia. 
Qed.

Lemma dancing_frames `{R : Py.Runtime} (p : Player.t) (k : nat) :
  Player.is_moving p = false ->
  Player.is_spinning p = false ->
  (k < 60)%nat ->
  frames_of_player k (with_dance true 0 p) = with_dance true (Z.of_nat k) p.
Proof.
  intros Hmov Hspin.
  induction k as [|k IH]; intros Hk; [reflexivity|].
  unfold frames_of_player in *. rewrite Nat.iter_succ.
  rewrite IH by lia. rewrite update_dancing_only by assumption.
  destruct (Z.leb_spec 60 (Z.of_nat k + 1)); [lia|].
  f_equal. lia.
Qed.

(** X3. A spin lasts thirty frames and a dance sixty. Started on an idle
    player, the action is under way, with its timer at the number of frames
    gone by, through every frame before the last; the last frame ends it
    and puts the timer back to zero, and the player is idle again, nothing
    else about it having changed. *)
Theorem spin_and_dance_last `{R : Py.Runtime} (p : Player.t) :
  Player.busy p = false ->
  (Player.spin p = (true, with_spin true 0 p) /\
   (forall k : nat,
      (k < 30)%nat ->
      frames_of_player k (with_spin true 0 p)
      = with_spin true (Z.of_nat k) p) /\
   frames_of_player 30 (with_spin true 0 p) = with_spin false 0 p /\
   Player.busy (with_spin false 0 p) = false) /\
  (Player.dance p = (true, with_dance true 0 p) /\
   (forall k : nat,
      (k < 60)%nat ->
      frames_of_player k (with_dance true 0 p)
      = with_dance true (Z.of_nat k) p) /\
   frames_of_player 60 (with_dance true 0 p) = with_dance false 0 p /\
   Player.busy (with_dance false 0 p) = false).
Proof.
  intros Hidle.
  destruct (idle_flags p Hidle) as (Hmov & Hspin & Hdance).
  split.
  - split; [|split; [|split]].
    + (destruct (spin_cases p) as [[Hbusy _]|[_ Hstart]];
        [rewrite Hidle in Hbusy; discriminate|exact Hstart]).
    + (intros k Hk; now apply spinning_frames).
    + rewrite (frames_succ 29).
      rewrite spinning_frames by (assumption || lia).
      rewrite update_spinning_only by assumption.
      reflexivity.
    + unfold Player.busy, with_spin. cbn. rewrite Hmov, Hdance. reflexivity.
  - split; [|split; [|split]].
    + destruct (dance_cases p) as [[Hbusy _]|[_ Hstart]];
        [rewrite Hidle in Hbusy; discriminate|exact Hstart].
    + intros k Hk. now apply dancing_frames.
    + rewrite (frames_succ 59).
      rewrite dancing_frames by (assumption || lia).
      rewrite update_dancing_only by assumption.
      reflexivity.
    + unfold Player.busy, with_dance. cbn. rewrite Hmov, Hspin. reflexivity.
Qed.

Lemma spin_and_dance_last_witness :
  frames_of_player (R := Sample.runtime) 30
    (with_spin true 0 (Game.player Game.__init__))
  = with_spin false 0 (Game.player Game.__init__) /\
  frames_of_player (R := Sample.runtime) 60
    (with_dance true 0 (Game.player Game.__init__))
  = with_dance false 0 (Game.player Game.__init__).
Proof.
  destruct (spin_and_dance_last (R := Sample.runtime)
              (Game.player Game.__init__) eq_refl)
    as ((_ & _ & Hspin & _) & (_ & _ & Hdance & _)).
  split; [exact Hspin|exact Hdance].
Defined.






Lemma set_console_player (c : Console.t) (g : Game.t) :
  Game.player (Game.set_console c g) = Game.player g.
Proof. reflexivity. Qed.








Lemma update_moving_flags `{R : Py.Runtime} (p : Player.t) :
  implb (Player.is_moving (Player.update_moving p)) (Player.is_moving p)
  = true /\
  Player.is_spinning (Player.update_moving p) = Player.is_spinning p /\
  Player.is_dancing (Player.update_moving p) = Player.is_dancing p.
Proof.
  unfold Player.update_moving.
  destruct (Player.is_moving p) eqn:Hmov;
    [destruct (Qlt_le_dec _ _)|rewrite Hmov]; repeat split.
Qed.















(** ** The accounts of the session *)













(** ** The interpreter, once more *)

Lemma startswith_app (p s : str) : Py.startswith p (p ++ s) = true.
Proof.
  induction p as [|a p IH]; [reflexivity|].
  cbn [app Py.startswith]. now rewrite N.eqb_refl, IH.
Qed.



Lemma span_word_app `{R : Py.Runtime} (name rest : str) :
  forallb Py.is_word name = true ->
  match rest with
  | [] => True
  | c :: _ => Py.is_word c = false
  end ->
  Game.span_word (name ++ rest) = (name, rest).
Proof.
  intros Hname Hrest.
  induction name as [|c name IH].
  - destruct rest as [|c rest]; [reflexivity|].
    cbn [app Game.span_word]. now rewrite Hrest.
  - cbn [forallb] in Hname. apply andb_prop in Hname as [Hc Hname].
    cbn [app Game.span_word]. now rewrite Hc, IH.
Qed.



Lemma match_call_complete `{R : Py.Runtime} (name args : str) :
  name <> [] ->
  forallb Py.is_word name = true ->
  existsb (N.eqb 10) args = false ->
  Game.match_call (lit "hero." ++ name ++ [40%N] ++ args ++ [41%N])
  = Some (name, args).
Proof.
  intros Hname Hword Hline. unfold Game.match_call.
  rewrite startswith_app.
  replace (drop 5 (lit "hero." ++ name ++ [40%N] ++ args ++ [41%N]))
    with (name ++ [40%N] ++ args ++ [41%N]) by reflexivity.
  rewrite span_word_app by (assumption || reflexivity).
  destruct name as [|c name]; [congruence|].
  cbn [app]. now rewrite match_args_closed.
Qed.




Lemma hero_prefix_nonempty (rest : str) :
  Py.str_eqb (lit "hero." ++ rest) [] = false.
Proof. apply str_eqb_false. discriminate. Qed.

Lemma valid_methods_extended (name : str) :
  name ∈ Settings.VALID_HERO_METHODS
         ++ [lit "spin"; lit "dance"; lit "collect"]
  <-> name ∈ Settings.VALID_HERO_METHODS.
Proof.
  rewrite elem_of_app. split; [|now left].
  intros [Hin|Hin]; [exact Hin|].
  repeat (apply elem_of_cons in Hin as [->|Hin];
          [apply (bool_decide_eq_true_1 _); vm_compute; reflexivity|]).
  now apply elem_of_nil in Hin.
Qed.

(** X8. A call of a method the hero does not have is refused, whatever
    its arguments: for a name made of word characters that is not in the
    list of valid methods, [hero.<name>(<args>)] raises [AttributeError]
    and leaves the session as it is. Without parentheses, [hero.<name>]
    is a syntax error, be the name valid or not. *)
Theorem unknown_method_refused `{R : Py.Runtime}
    (name args : str) (g : Game.t) :
  name <> [] ->
  forallb Py.is_word name = true ->
  existsb (N.eqb 10) args = false ->
  name ∉ Settings.VALID_HERO_METHODS ->
  Game._execute_hero_command
    (lit "hero." ++ name ++ [40%N] ++ args ++ [41%N]) g
  = (inl (Py.AttributeError (lit "Unknown method: " ++ name)), g) /\
  Game._execute_hero_command (lit "hero." ++ name) g
  = (inl (Py.SyntaxError (lit "Invalid command syntax")), g).
Proof.
  intros Hname Hword Hline Hunknown.
  unfold Game._execute_hero_command.
  rewrite !hero_prefix_nonempty, !startswith_app. cbn [negb].
  split.
  - rewrite match_call_complete by assumption.
    rewrite bool_decide_eq_true_2; [reflexivity|].
    now rewrite valid_methods_extended.
  - unfold Game.match_call. rewrite startswith_app.
    replace (drop 5 (lit "hero." ++ name)) with (name ++ [])
      by (rewrite app_nil_r; reflexivity).
    rewrite span_word_app by (assumption || exact I).
    now destruct name.
Qed.

Lemma unknown_method_refused_witness :
  Game._execute_hero_command (R := Sample.runtime)
    (lit "hero.fly(1, 2)") Game.__init__
  = (inl (Py.AttributeError (lit "Unknown method: fly")), Game.__init__) /\
  Game._execute_hero_command (R := Sample.runtime)
    (lit "hero.fly") Game.__init__
  = (inl (Py.SyntaxError (lit "Invalid command syntax")), Game.__init__).
Proof.
  apply (unknown_method_refused (R := Sample.runtime)
           (lit "fly") (lit "1, 2") Game.__init__);
    [discriminate|reflexivity|reflexivity|].
  unfold Settings.VALID_HERO_METHODS.
  repeat (apply not_elem_of_cons; split; [discriminate|]).
  apply not_elem_of_nil.
Defined.

Lemma call_hero_too_many (f : Player.t -> Hero.t -> str * Player.t * Hero.t)
    (m : Hero.method) (arg : Py.value) (g : Game.t) :
  (forall args p h, Hero.call m args p h = Hero.call0 f args p h) ->
  Game.call_hero m [arg] g = (inl Py.TypeError, g).
Proof.
  intros Hcall. unfold Game.call_hero. now rewrite Hcall.
Qed.



Lemma show_hint_frame (g : Game.t) :
  Game.player (Game._show_hint g) = Game.player g /\
  Game.hero (Game._show_hint g) = Game.hero g /\
  Game.successful_moves (Game._show_hint g) = Game.successful_moves g /\
  Game.commands_executed (Game._show_hint g) = Game.commands_executed g.
Proof. unfold Game._show_hint. now case_match. Qed.

Lemma lower_nil `{R : Py.Runtime} : Py.lower [] = [].
Proof. reflexivity. Qed.

(** X10. Blank lines and the three reserved words. A line of blanks is
    counted as a command and does nothing else. [help], [clear] and [hint],
    in any letter case and with blanks around them, show the help, bring
    the log back to the welcome message of the startup and show the hint; like a blank line they never reach the hero:
    the player, the wrapper, the achievements of the session and the
    counter of moves stay as they are. *)
Theorem blank_and_reserved_lines `{R : Py.Runtime}
    (command : str) (g : Game.t) :
  (Py.strip command = [] ->
   Game._handle_command command g = Game.bump_commands g) /\
  (Py.lower (Py.strip command) = lit "help" ->
   Game._handle_command command g = Game._show_help (Game.bump_commands g)) /\
  (Py.lower (Py.strip command) = lit "clear" ->
   Game._handle_command command g
   = Game.set_console Console.__init__ (Game.bump_commands g)) /\
  (Py.lower (Py.strip command) = lit "hint" ->
   Game._handle_command command g = Game._show_hint (Game.bump_commands g)) /\
  (Py.strip command = [] \/
   Py.lower (Py.strip command) ∈ [lit "help"; lit "clear"; lit "hint"] ->
   Game.player (Game._handle_command command g) = Game.player g /\
   Game.hero (Game._handle_command command g) = Game.hero g /\
   progress (Game._handle_command command g) = progress g /\
   Game.successful_moves (Game._handle_command command g)
   = Game.successful_moves g).
Proof.
  assert (Hblank : Py.strip command = [] ->
            Game._handle_command command g = Game.bump_commands g).
  { intros Hstrip. unfold Game._handle_command.
    now rewrite Hstrip, str_eqb_true. }
  assert (Hword : forall word,
            word <> [] -> Py.lower (Py.strip command) = word ->
            Py.str_eqb (Py.strip command) [] = false).
  { intros word Hne Hlower. apply str_eqb_false. intros Hstrip.
    rewrite Hstrip, lower_nil in Hlower. congruence. }
  assert (Hhelp : Py.lower (Py.strip command) = lit "help" ->
            Game._handle_command command g
            = Game._show_help (Game.bump_commands g)).
  { intros Hlower. unfold Game._handle_command.
    rewrite (Hword (lit "help")) by (discriminate || assumption).
    now rewrite Hlower, str_eqb_true. }
  assert (Hclear : Py.lower (Py.strip command) = lit "clear" ->
            Game._handle_command command g
            = Game.set_console Console.__init__ (Game.bump_commands g)).
  { intros Hlower. unfold Game._handle_command.
    rewrite (Hword (lit "clear")) by (discriminate || assumption).
    rewrite Hlower. reflexivity. }
  assert (Hhint : Py.lower (Py.strip command) = lit "hint" ->
            Game._handle_command command g
            = Game._show_hint (Game.bump_commands g)).
  { intros Hlower. unfold Game._handle_command.
    rewrite (Hword (lit "hint")) by (discriminate || assumption).
    rewrite Hlower. reflexivity. }
  split; [|split; [|split; [|split]]]; try assumption.
  intros [Hstrip|Hin]; [rewrite Hblank by assumption; now repeat split|].
  rewrite !elem_of_cons, elem_of_nil in Hin.
  destruct Hin as [Hw|[Hw|[Hw|[]]]].
  - rewrite Hhelp by assumption. now repeat split.
  - rewrite Hclear by assumption. now repeat split.
  - rewrite Hhint by assumption.
    destruct (show_hint_frame (Game.bump_commands g)) as (Hp & Hh & Hm & _).
    rewrite Hp, Hh, Hm, show_hint_progress. now repeat split.
Qed.

Lemma blank_and_reserved_lines_witness :
  Game._handle_command (R := Sample.runtime) (lit "   ") Game.__init__
  = Game.bump_commands Game.__init__ /\
  Game._handle_command (R := Sample.runtime) (lit "  CLEAR ") Game.__init__
  = Game.set_console Console.__init__ (Game.bump_commands Game.__init__).
Proof.
  destruct (blank_and_reserved_lines (R := Sample.runtime)
              (lit "   ") Game.__init__) as (Hblank & _).
  destruct (blank_and_reserved_lines (R := Sample.runtime)
              (lit "  CLEAR ") Game.__init__) as (_ & _ & Hclear & _).
  split; [apply Hblank|apply Hclear]; reflexivity.
Defined.









(** ** The gems *)

Lemma blocked_positions_spec (obstacles : list Obstacle.t) (col row : Z) :
  (col, row) ∉
    ({[ (5, 4) ]} ∪
     list_to_set
       (map (fun obs => (Obstacle.grid_col obs, Obstacle.grid_row obs))
          obstacles) : gset (Z * Z)) <->
  (col, row) <> (5, 4) /\
  Forall
    (fun obs => (Obstacle.grid_col obs, Obstacle.grid_row obs) <> (col, row))
    obstacles.
Proof.
  rewrite not_elem_of_union, not_elem_of_singleton, elem_of_list_to_set.
  rewrite list_elem_of_In, in_map_iff, List.Forall_forall.
  split; intros [Hstart Hobs]; (split; [assumption|]).
  - intros obs Hin Heq. apply Hobs. now exists obs.
  - intros (obs & Heq & Hin). now apply (Hobs obs).
Qed.

(** X13. Where the gems are placed. For any obstacles, the gems of a
    session are exactly those of the seven planned positions that are
    neither the start cell (5, 4) of the player nor the cell of an
    obstacle, each one new (its value that of its type, not collected);
    with the obstacles of the game none of the seven is left out. *)
Theorem gems_avoid_obstacles (obstacles : list Obstacle.t) :
  (forall gem : Collectible.t,
     gem ∈ Game._create_collectibles obstacles <->
     exists col row gem_type,
       (col, row, gem_type) ∈ Game.gem_positions /\
       gem = Collectible.__init__ col row gem_type /\
       (col, row) <> (5, 4) /\
       Forall
         (fun obs =>
            (Obstacle.grid_col obs, Obstacle.grid_row obs) <> (col, row))
         obstacles) /\
  length (Game._create_collectibles Game._create_obstacles)
  = length Game.gem_positions.
Proof.
  split; [|vm_compute; reflexivity].
  intros gem. unfold Game._create_collectibles.
  rewrite list_elem_of_In, in_flat_map. split.
  - intros ([[col row] gem_type] & Hpos & Hin).
    case_bool_decide as Hfree; [|destruct Hin].
    destruct Hin as [<-|[]].
    apply blocked_positions_spec in Hfree as [Hstart Hobs].
    exists col, row, gem_type. now rewrite list_elem_of_In.
  - intros (col & row & gem_type & Hpos & -> & Hstart & Hobs).
    exists (col, row, gem_type). rewrite <- list_elem_of_In.
    split; [assumption|].
    rewrite bool_decide_eq_true_2; [now left|].
    now apply blocked_positions_spec.
Qed.

Lemma gems_avoid_obstacles_witness :
  Collectible.__init__ 1 1 (lit "ruby")
  ∈ Game._create_collectibles Game._create_obstacles /\
  Collectible.__init__ 1 1 (lit "ruby")
  ∉ Game._create_collectibles [Obstacle.__init__ 1 1 (lit "rock")].
Proof.
  split.
  - apply (proj1 (gems_avoid_obstacles Game._create_obstacles)).
    exists 1, 1, (lit "ruby").
    split; [apply elem_of_cons; now left|]. split; [reflexivity|].
    split; [discriminate|].
    apply (bool_decide_eq_true_1 _). vm_compute. reflexivity.
  - intros Hin.
    apply (proj1 (gems_avoid_obstacles
                    [Obstacle.__init__ 1 1 (lit "rock")])) in Hin
      as (col & row & gem_type & _ & Heq & _ & Hobs).
    injection Heq as <- <- _. inversion Hobs as [|obs rest Hne _].
    now apply Hne.
Defined.

(** ** What the hero says *)

Lemma strip_fixed (a b : N) (s : str) :
  Py.isspace a = false -> Py.isspace b = false ->
  Py.strip (a :: s ++ [b]) = a :: s ++ [b].
Proof.
  intros Ha Hb.
  assert (Hrev : rev (a :: s ++ [b]) = b :: (rev s ++ [a])).
  { cbn [rev]. rewrite rev_app_distr. reflexivity. }
  unfold Py.strip, Py.rstrip. cbn [Py.lstrip]. rewrite Ha, Hrev.
  cbn [Py.lstrip]. rewrite Hb, <- Hrev. apply rev_involutive.
Qed.

Lemma is_quoted_between (c q : N) (text : str) :
  Game.is_quoted c (q :: text ++ [q]) = (c =? q)%N.
Proof.
  unfold Game.is_quoted.
  change (q :: text ++ [q]) with ((q :: text) ++ [q]) at 2.
  rewrite endswith_snoc. cbn [Py.startswith app].
  now destruct (c =? q)%N.
Qed.

Lemma execute_say_quoted `{R : Py.Runtime} (q : N) (text : str)
    (g : Game.t) :
  q = 34%N \/ q = 39%N ->
  existsb (N.eqb 10) text = false ->
  Game._execute_hero_command
    (lit "hero.say(" ++ [q] ++ text ++ [q] ++ lit ")") g
  = let msg := (lit "Hero says: " ++ [34%N]) ++ text ++ [34%N] in
    (inr (Some msg), Game.set_actor (Game.player g) (Hero.mk (Some msg)) g).
Proof.
  intros Hq Hline.
  replace ([q] ++ text ++ [q] ++ lit ")")
    with ((q :: text ++ [q]) ++ [41%N])
    by (cbn [app]; rewrite <- !app_assoc; reflexivity).
  change (lit "hero.say(" ++ ?rest)
    with (lit "hero." ++ lit "say" ++ [40%N] ++ rest).
  assert (Hargs : existsb (N.eqb 10) (q :: text ++ [q]) = false).
  { cbn [existsb]. rewrite existsb_app, Hline.
    destruct Hq as [-> | ->]; reflexivity. }
  assert (Hspace : Py.isspace q = false)
    by (destruct Hq as [-> | ->]; reflexivity).
  unfold Game._execute_hero_command.
  rewrite hero_prefix_nonempty, startswith_app. cbn [negb].
  rewrite match_call_complete by (discriminate || reflexivity || assumption).
  rewrite bool_decide_eq_false_2.
  2:{ intros Hnot. apply Hnot. apply valid_methods_extended.
      apply (bool_decide_eq_true_1 _). vm_compute. reflexivity. }
  let m := eval vm_compute in (Hero.getattr (lit "say")) in
  change (Hero.getattr (lit "say")) with m.
  cbv iota. rewrite strip_fixed by assumption.
  rewrite (str_eqb_false (q :: text ++ [q]) []) by discriminate.
  cbn [negb]. rewrite !is_quoted_between.
  unfold Py.slice_1_m1. cbn [tail]. rewrite removelast_last.
  destruct Hq as [-> | ->]; reflexivity.
Qed.

(** X14. What [say] is given between quotes is echoed as it stands. For a
    text without a newline, between two double quotes or two single ones,
    [hero.say(<quoted text>)] is a success: the hero and the log get
    [Hero says: "<text>"], the player is left as it is, and the line counts
    as a successful move exactly when that message has the word [Moving]
    in it. *)
Theorem say_echoes_quoted_text `{R : Py.Runtime} (q : N) (text : str)
    (g : Game.t) :
  q = 34%N \/ q = 39%N ->
  existsb (N.eqb 10) text = false ->
  let msg := (lit "Hero says: " ++ [34%N]) ++ text ++ [34%N] in
  Game._handle_command (lit "hero.say(" ++ [q] ++ text ++ [q] ++ lit ")") g
  = (if Py.contains (lit "Moving") msg then Game.bump_moves else id)
      (Game.set_console (Console.add_success msg (Game.console g))
         (Game.set_actor (Game.player g) (Hero.mk (Some msg))
            (Game.bump_commands g))).
Proof.
  intros Hq Hline msg.
  assert (Hstrip :
    Py.strip (lit "hero.say(" ++ [q] ++ text ++ [q] ++ lit ")")
    = lit "hero.say(" ++ [q] ++ text ++ [q] ++ lit ")").
  { replace (lit "hero.say(" ++ [q] ++ text ++ [q] ++ lit ")")
      with (104%N :: (lit "ero.say(" ++ [q] ++ text ++ [q]) ++ [41%N]).
    - now apply strip_fixed.
    - change (lit "hero.say(" ++ ?rest)
        with (104%N :: lit "ero.say(" ++ rest).
      f_equal. rewrite <- !app_assoc. reflexivity. }
  unfold Game._handle_command. rewrite Hstrip.
  rewrite (str_eqb_false (lit "hero.say(" ++ _) []) by discriminate.
  assert (Hreserved : forall word,
    word ∈ [lit "help"; lit "clear"; lit "hint"] ->
    Py.str_eqb
      (Py.lower (lit "hero.say(" ++ [q] ++ text ++ [q] ++ lit ")")) word
    = false).
  { intros word Hin. apply str_eqb_false.
    change (lit "hero.say(" ++ ?rest)
      with (lit "her" ++ lit "o.say(" ++ rest).
    unfold Py.lower. rewrite flat_map_app.
    let prefix := eval vm_compute in (flat_map Py.lower_char (lit "her")) in
    change (flat_map Py.lower_char (lit "her")) with prefix.
    rewrite !elem_of_cons, elem_of_nil in Hin.
    destruct Hin as [->|[->|[->|[]]]]; discriminate. }
  rewrite !Hreserved
    by (apply (bool_decide_eq_true_1 _); vm_compute; reflexivity).
  rewrite execute_say_quoted by assumption.
  subst msg. cbv beta iota zeta.
  rewrite (str_eqb_false ((lit "Hero says: " ++ _) ++ _) [])
    by discriminate.
  cbn [negb].
  destruct (Py.contains _ _); reflexivity.
Qed.

Lemma say_echoes_quoted_text_witness :
  Game.successful_moves
    (Game._handle_command (R := Sample.runtime)
       (lit "hero.say('Moving on')") Game.__init__)
  = 1 /\
  Game.player
    (Game._handle_command (R := Sample.runtime)
       (lit "hero.say('Moving on')") Game.__init__)
  = Game.player Game.__init__.
Proof.
  pose proof (say_echoes_quoted_text (R := Sample.runtime) 39%N
                (lit "Moving on") Game.__init__
                (or_intror eq_refl) eq_refl) as Hsay.
  cbv zeta in Hsay.
  change (lit "hero.say(" ++ [39%N] ++ lit "Moving on" ++ [39%N] ++ lit ")")
    with (lit "hero.say('Moving on')") in Hsay.
  rewrite Hsay. split; vm_compute; reflexivity.
Defined.

(** ** The input line of the console *)

Lemma slice_to_nonneg {A} (k : Z) (s : list A) :
  0 <= k -> Input.slice_to k s = take (Z.to_nat k) s.
Proof.
  intros Hk. unfold Input.slice_to, Input.bound.
  destruct (Z.ltb_spec k 0) as [Hneg|_]; [lia|].
  destruct (Z.le_gt_cases k (Z.of_nat (length s))) as [Hle|Hgt].
  - f_equal. lia.
  - rewrite !take_ge by lia. reflexivity.
Qed.

Lemma slice_from_nonneg {A} (k : Z) (s : list A) :
  0 <= k -> Input.slice_from k s = drop (Z.to_nat k) s.
Proof.
  intros Hk. unfold Input.slice_from, Input.bound.
  destruct (Z.ltb_spec k 0) as [Hneg|_]; [lia|].
  destruct (Z.le_gt_cases k (Z.of_nat (length s))) as [Hle|Hgt].
  - f_equal. lia.
  - rewrite !drop_ge by lia. reflexivity.
Qed.

Lemma insert_character_spec (char : str) (c : Input.t) :
  in_line c ->
  Input.input_text (Input._insert_character char c)
  = take (Z.to_nat (Input.cursor_pos c)) (Input.input_text c)
    ++ char ++ drop (Z.to_nat (Input.cursor_pos c)) (Input.input_text c).
Proof.
  intros [Hlow Hhigh]. unfold Input._insert_character. cbn.
  now rewrite slice_to_nonneg, slice_from_nonneg.
Qed.

Lemma insert_character_in_line (char : str) (c : Input.t) :
  char <> [] -> in_line c -> in_line (Input._insert_character char c).
Proof.
  intros Hchar Hline. unfold in_line.
  rewrite insert_character_spec by assumption.
  destruct Hline as [Hlow Hhigh]. unfold Input.len in *.
  cbn [Input._insert_character Input.set_line Input.cursor_pos].
  rewrite !length_app, length_take, length_drop.
  destruct char; [congruence|]. cbn [length]. lia.
Qed.




(** The entry of the history [index] steps back. *)
Lemma item_from_end {A} (l : list A) (index : Z) :
  0 <= index < Input.len l ->
  Input.item l (- (index + 1))
  = l !! (length l - 1 - Z.to_nat index)%nat /\
  is_Some (Input.item l (- (index + 1))).
Proof.
  intros [Hlow Hhigh]. unfold Input.item, Input.len in *.
  destruct (Z.ltb_spec (- (index + 1)) 0) as [_|Hneg]; [|lia].
  destruct (Z.ltb_spec (- (index + 1) + Z.of_nat (length l)) 0); [lia|].
  replace (Z.to_nat (- (index + 1) + Z.of_nat (length l)))
    with (length l - 1 - Z.to_nat index)%nat by lia.
  split; [reflexivity|]. apply lookup_lt_is_Some. lia.
Qed.

Lemma show_history_spec (index : Z) (c : Input.t) :
  0 <= index < Input.len (Input.command_history c) ->
  exists text,
    Input.command_history c
      !! (length (Input.command_history c) - 1 - Z.to_nat index)%nat
    = Some text /\
    Input.show_history index c
    = Some (Input.set_line text (Input.len text)
              (Input.set_history_index index c)).
Proof.
  intros Hindex. unfold Input.show_history.
  destruct (item_from_end (Input.command_history c) index Hindex)
    as [Hitem [text Htext]].
  exists text. rewrite <- Hitem, Htext. split; reflexivity.
Qed.

Lemma set_temp_input_well_formed (text : str) (c : Input.t) :
  well_formed c -> well_formed (Input.set_temp_input text c).
Proof. intros H. exact H. Qed.









Lemma set_blink_well_formed (visible : bool) (timer : Z) (c : Input.t) :
  well_formed c -> well_formed (Input.set_blink visible timer c).
Proof. intros H. exact H. Qed.



Section Loop.
Context {R : Py.Runtime} {U : Input.Unicode}.







End Loop.


Lemma take_inserted {A} (p : nat) (ch : A) (t : list A) :
  (p <= length t)%nat ->
  take p (take p t ++ [ch] ++ drop p t) = take p t /\
  take (S p) (take p t ++ [ch] ++ drop p t) = take p t ++ [ch] /\
  drop (S p) (take p t ++ [ch] ++ drop p t) = drop p t.
Proof.
  intros Hp.
  assert (Hlen : length (take p t) = p) by (rewrite length_take; lia).
  split; [|split].
  - apply take_app_length'. now rewrite Hlen.
  - rewrite app_assoc. apply take_app_length'.
    rewrite length_app, Hlen. cbn. lia.
  - rewrite app_assoc. apply drop_app_length'.
    rewrite length_app, Hlen. cbn. lia.
Qed.

Lemma backspace_insert (ch : N) (c : Input.t) :
  in_line c -> Input._handle_backspace (Input._insert_character [ch] c) = c.
Proof.
  intros [Hlow Hhigh]. unfold Input.len in Hhigh.
  destruct (take_inserted (Z.to_nat (Input.cursor_pos c)) ch
              (Input.input_text c)) as (Htake & _ & Hdrop); [lia|].
  unfold Input._handle_backspace, Input._insert_character.
  cbn [Input.set_line Input.cursor_pos Input.input_text
       Input.cursor_visible Input.cursor_timer Input.command_history
       Input.history_index Input.temp_input].
  destruct (Z.ltb_spec 0 (Input.cursor_pos c + 1)) as [_|Hneg]; [|lia].
  rewrite Z.add_simpl_r.
  rewrite !slice_to_nonneg, !slice_from_nonneg by lia.
  replace (Z.to_nat (Input.cursor_pos c + 1))
    with (S (Z.to_nat (Input.cursor_pos c))) by lia.
  rewrite Htake, Hdrop, take_drop. now destruct c.
Qed.

Lemma delete_insert (ch : N) (c : Input.t) :
  in_line c ->
  Input._handle_delete
    (Input._move_cursor_left (Input._insert_character [ch] c))
  = c.
Proof.
  intros [Hlow Hhigh]. unfold Input.len in Hhigh.
  destruct (take_inserted (Z.to_nat (Input.cursor_pos c)) ch
              (Input.input_text c)) as (Htake & _ & Hdrop); [lia|].
  unfold Input._handle_delete, Input._move_cursor_left,
    Input._insert_character, Input.set_cursor_pos.
  cbn [Input.set_line Input.cursor_pos Input.input_text
       Input.cursor_visible Input.cursor_timer Input.command_history
       Input.history_index Input.temp_input].
  destruct (Z.ltb_spec 0 (Input.cursor_pos c + 1)) as [_|Hneg]; [|lia].
  cbn [Input.set_line Input.cursor_pos Input.input_text
       Input.cursor_visible Input.cursor_timer Input.command_history
       Input.history_index Input.temp_input].
  rewrite Z.add_simpl_r.
  rewrite !slice_to_nonneg, !slice_from_nonneg by lia.
  replace (Z.to_nat (Input.cursor_pos c + 1))
    with (S (Z.to_nat (Input.cursor_pos c))) by lia.
  destruct (Z.ltb_spec (Input.cursor_pos c)
              (Input.len
                 (take (Z.to_nat (Input.cursor_pos c)) (Input.input_text c)
                  ++ [ch]
                  ++ drop (Z.to_nat (Input.cursor_pos c))
                       (Input.input_text c)))) as [_|Hge].
  - rewrite Htake, Hdrop, take_drop. now destruct c.
  - unfold Input.len in Hge.
    rewrite !length_app, length_take, length_drop in Hge. cbn in Hge. lia.
Qed.

(** X16. Typing and erasing. With the cursor within the line, the keys of
    a text put that text into the line where the cursor was and move the
    cursor past it; as many backspaces bring the line, the cursor and all
    the rest back to what they were, and so does, for a single character,
    a step to the left followed by the delete key. *)
Theorem typing_and_erasing (text : str) (c : Input.t) :
  in_line c ->
  Input.input_text (type_text text c)
  = take (Z.to_nat (Input.cursor_pos c)) (Input.input_text c)
    ++ text ++ drop (Z.to_nat (Input.cursor_pos c)) (Input.input_text c) /\
  Input.cursor_pos (type_text text c)
  = Input.cursor_pos c + Input.len text /\
  Nat.iter (length text) Input._handle_backspace (type_text text c) = c /\
  (forall ch : N,
     Input._handle_delete (Input._move_cursor_left (type_text [ch] c)) = c).
Proof.
  intros Hline.
  split; [|split; [|split]]; [| | |intros ch; now apply delete_insert];
    revert c Hline; induction text as [|ch rest IH]; intros c Hline.
  - cbn. now rewrite take_drop.
  - change (type_text (ch :: rest) c)
      with (type_text rest (Input._insert_character [ch] c)).
    rewrite IH by (now apply insert_character_in_line).
    rewrite insert_character_spec by assumption.
    destruct Hline as [Hlow Hhigh]. unfold Input.len in Hhigh.
    destruct (take_inserted (Z.to_nat (Input.cursor_pos c)) ch
                (Input.input_text c)) as (_ & Htake & Hdrop); [lia|].
    cbn [Input._insert_character Input.set_line Input.cursor_pos].
    replace (Z.to_nat (Input.cursor_pos c + 1))
      with (S (Z.to_nat (Input.cursor_pos c))) by lia.
    rewrite Htake, Hdrop, <- app_assoc. reflexivity.
  - cbn. unfold Input.len. cbn. lia.
  - change (type_text (ch :: rest) c)
      with (type_text rest (Input._insert_character [ch] c)).
    rewrite IH by (now apply insert_character_in_line).
    unfold Input.len. cbn [Input._insert_character Input.set_line
                           Input.cursor_pos length]. lia.
  - reflexivity.
  - change (type_text (ch :: rest) c)
      with (type_text rest (Input._insert_character [ch] c)).
    cbn [length]. rewrite Nat.iter_succ.
    rewrite IH by (now apply insert_character_in_line).
    now apply backspace_insert.
Qed.

Lemma typing_and_erasing_witness :
  Input.input_text
    (type_text (lit "move_")
       (Input.set_line (lit "hero.up()") 5 Input.__init__))
  = lit "hero.move_up()".
Proof.
  destruct (typing_and_erasing (lit "move_")
              (Input.set_line (lit "hero.up()") 5 Input.__init__))
    as (Htext & _).
  - unfold in_line, Input.len. simpl. lia.
  - rewrite Htext. vm_compute. reflexivity.
Defined.

Lemma navigate_history_up_nonempty (c : Input.t) :
  (0 < length (Input.command_history c))%nat ->
  Input._navigate_history_up c
  = let c1 :=
      if Input.history_index c =? -1
      then Input.set_temp_input (Input.input_text c) c else c in
    if Input.history_index c1 <? Input.len (Input.command_history c1) - 1
    then Input.show_history (Input.history_index c1 + 1) c1
    else Some c1.
Proof.
  intros Hlen. unfold Input._navigate_history_up.
  destruct (Input.command_history c) eqn:Hhistory;
    [cbn in Hlen; lia|reflexivity].
Qed.

Lemma up_while_browsing (c : Input.t) (text : str) (index : nat) :
  (S index < length (Input.command_history c))%nat ->
  exists text',
    Input.command_history c
      !! (length (Input.command_history c) - 1 - S index)%nat
    = Some text' /\
    Input._navigate_history_up (shown c text (Z.of_nat index))
    = Some (shown c text' (Z.of_nat (S index))).
Proof.
  intros Hindex.
  rewrite navigate_history_up_nonempty by (cbn; lia).
  cbn [shown Input.command_history Input.history_index].
  destruct (Z.eqb_spec (Z.of_nat index) (-1)) as [Hneg|_]; [lia|].
  cbn [shown Input.command_history Input.history_index].
  destruct (Z.ltb_spec (Z.of_nat index)
              (Input.len (Input.command_history c) - 1))
    as [_|Hge]; [|unfold Input.len in Hge; lia].
  destruct (show_history_spec (Z.of_nat index + 1)
              (shown c text (Z.of_nat index)))
    as (text' & Htext' & Hshow);
    [cbn; unfold Input.len; lia|].
  cbn [shown Input.command_history] in Htext'.
  replace (Z.to_nat (Z.of_nat index + 1)) with (S index) in Htext' by lia.
  exists text'. split; [exact Htext'|].
  unfold shown in Hshow |- *. rewrite Hshow.
  unfold Input.set_line, Input.set_history_index. cbn.
  do 2 f_equal. lia.
Qed.

Lemma ups_while_browsing (c : Input.t) (n : nat) :
  forall (text : str) (index : nat),
  (index + n < length (Input.command_history c))%nat ->
  exists text',
    (n = 0%nat -> text' = text) /\
    (n <> 0%nat ->
     Input.command_history c
       !! (length (Input.command_history c) - 1 - (index + n))%nat
     = Some text') /\
    press Input._navigate_history_up n (shown c text (Z.of_nat index))
    = Some (shown c text' (Z.of_nat (index + n))).
Proof.
  induction n as [|n IH]; intros text index Hindex.
  - exists text. rewrite Nat.add_0_r. now repeat split.
  - destruct (up_while_browsing c text index) as (text1 & Htext1 & Hup);
      [lia|].
    destruct (IH text1 (S index)) as (text' & Hzero & Hpos & Hpress); [lia|].
    exists text'. split; [discriminate|].
    replace (index + S n)%nat with (S index + n)%nat by lia.
    split.
    + intros _. destruct n; [|apply Hpos; discriminate].
      rewrite Hzero by reflexivity. now rewrite Nat.add_0_r.
    + cbn [press]. now rewrite Hup.
Qed.

Lemma down_while_browsing (c : Input.t) (text : str) (index : nat) :
  (S index < length (Input.command_history c))%nat ->
  exists text',
    Input._navigate_history_down (shown c text (Z.of_nat (S index)))
    = Some (shown c text' (Z.of_nat index)).
Proof.
  intros Hindex. unfold Input._navigate_history_down.
  cbn [shown Input.command_history Input.history_index].
  destruct (Z.ltb_spec 0 (Z.of_nat (S index))) as [_|Hge]; [|lia].
  destruct (show_history_spec (Z.of_nat (S index) - 1)
              (shown c text (Z.of_nat (S index))))
    as (text' & _ & Hshow);
    [cbn; unfold Input.len; lia|].
  exists text'.
  unfold shown in Hshow |- *. rewrite Hshow.
  unfold Input.set_line, Input.set_history_index. cbn.
  do 2 f_equal. lia.
Qed.

Lemma downs_while_browsing (c : Input.t) (n : nat) :
  forall text : str,
  (n < length (Input.command_history c))%nat ->
  press Input._navigate_history_down (S n) (shown c text (Z.of_nat n))
  = Some (shown c (Input.input_text c) (-1)).
Proof.
  induction n as [|n IH]; intros text Hindex.
  - reflexivity.
  - destruct (down_while_browsing c text n Hindex) as (text' & Hdown).
    change (press Input._navigate_history_down (S (S n))
              (shown c text (Z.of_nat (S n))))
      with (match Input._navigate_history_down
                    (shown c text (Z.of_nat (S n))) with
            | Some c' => press Input._navigate_history_down (S n) c'
            | None => None
            end).
    rewrite Hdown. apply IH. lia.
Qed.

Lemma up_at_oldest (c : Input.t) (text : str) (index : nat) :
  S index = length (Input.command_history c) ->
  Input._navigate_history_up (shown c text (Z.of_nat index))
  = Some (shown c text (Z.of_nat index)).
Proof.
  intros Hindex.
  rewrite navigate_history_up_nonempty by (cbn; lia).
  cbn [shown Input.command_history Input.history_index].
  destruct (Z.eqb_spec (Z.of_nat index) (-1)) as [Hneg|_]; [lia|].
  cbn [shown Input.command_history Input.history_index].
  destruct (Z.ltb_spec (Z.of_nat index)
              (Input.len (Input.command_history c) - 1))
    as [Hlt|_]; [unfold Input.len in Hlt; lia|reflexivity].
Qed.

Lemma first_up (c : Input.t) :
  Input.history_index c = -1 ->
  (0 < length (Input.command_history c))%nat ->
  exists text,
    Input.command_history c !! (length (Input.command_history c) - 1)%nat
    = Some text /\
    Input._navigate_history_up c = Some (shown c text 0).
Proof.
  intros Hindex Hlen.
  rewrite navigate_history_up_nonempty by assumption.
  cbv zeta. rewrite Hindex. change (-1 =? -1) with true. cbv iota.
  change (Input.history_index
            (Input.set_temp_input (Input.input_text c) c))
    with (Input.history_index c).
  change (Input.command_history
            (Input.set_temp_input (Input.input_text c) c))
    with (Input.command_history c).
  rewrite Hindex.
  destruct (Z.ltb_spec (-1) (Input.len (Input.command_history c) - 1))
    as [_|Hge]; [|unfold Input.len in Hge; lia].
  destruct (show_history_spec (-1 + 1)
              (Input.set_temp_input (Input.input_text c) c))
    as (text & Htext & ->);
    [cbn; unfold Input.len; lia|].
  cbn [Input.set_temp_input Input.command_history] in Htext.
  rewrite Nat.sub_0_r in Htext.
  exists text. split; [exact Htext|reflexivity].
Qed.

(** X17. Browsing the history. From a line that is not browsing, with a
    history of more than [n] commands, [n + 1] presses of the up key show
    the command [n] places before the last one, the cursor at its end;
    at the oldest command a further press changes nothing. As many presses
    of the down key then bring back the text that was typed, the cursor at
    its end, and end the browsing; a further press changes nothing. *)
Theorem history_browsing (c : Input.t) (n : nat) :
  Input.history_index c = -1 ->
  (n < length (Input.command_history c))%nat ->
  exists up down,
    press Input._navigate_history_up (S n) c = Some up /\
    Input.command_history c
      !! (length (Input.command_history c) - 1 - n)%nat
    = Some (Input.input_text up) /\
    Input.cursor_pos up = Input.len (Input.input_text up) /\
    Input.history_index up = Z.of_nat n /\
    (S n = length (Input.command_history c) ->
     Input._navigate_history_up up = Some up) /\
    press Input._navigate_history_down (S n) up = Some down /\
    Input.input_text down = Input.input_text c /\
    Input.cursor_pos down = Input.len (Input.input_text c) /\
    Input.history_index down = -1 /\
    Input.command_history down = Input.command_history c /\
    Input._navigate_history_down down = Some down.
Proof.
  intros Hindex Hlen.
  destruct (first_up c Hindex) as (text0 & Htext0 & Hup0); [lia|].
  destruct (ups_while_browsing c n text0 0%nat)
    as (text & Hzero & Hpos & Hups); [lia|].
  cbn [Nat.add] in Hups, Hpos.
  eexists _, _. split; [cbn [press]; rewrite Hup0; exact Hups|].
  cbn [shown Input.input_text Input.cursor_pos Input.history_index
       Input.command_history].
  split.
  { destruct n; [|apply Hpos; discriminate].
    rewrite Hzero by reflexivity. now rewrite Nat.sub_0_r. }
  split; [reflexivity|]. split; [reflexivity|].
  split; [intros Hlast; now apply up_at_oldest|].
  split; [now apply downs_while_browsing|].
  now repeat split.
Qed.

Lemma history_browsing_witness :
  exists up down,
    press Input._navigate_history_up 2
      (Input.mk (lit "he") 2 true 0
         [lit "hero.spin()"; lit "hero.jump()"; lit "hint"] (-1) [])
    = Some up /\
    Input.input_text up = lit "hero.jump()" /\
    press Input._navigate_history_down 2 up = Some down /\
    Input.input_text down = lit "he".
Proof.
  destruct (history_browsing
              (Input.mk (lit "he") 2 true 0
                 [lit "hero.spin()"; lit "hero.jump()"; lit "hint"] (-1) [])
              1 eq_refl)
    as (up & down & Hup & Htext & _ & _ & _ & Hdown & Htyped & _);
    [simpl; lia|].
  exists up, down. split; [exact Hup|].
  split; [simpl in Htext; congruence|].
  split; [exact Hdown|exact Htyped].
Defined.

(** ** The return key and the loop *)


Section Keys.
Context {R : Py.Runtime} {U : Input.Unicode}.



End Keys.


Section Reaching.
Context {R : Py.Runtime} {U : Input.Unicode}.









End Reaching.


(** ** The animation of a move *)

Lemma update_while_moving `{R : Py.Runtime} (dt : Z) (p : Player.t) :
  Player.is_spinning p = false -> Player.is_dancing p = false ->
  Player.update dt p = Player.update_moving p.
Proof.
  intros Hspin Hdance.
  destruct (update_moving_flags p) as (_ & Hspin' & Hdance').
  unfold Player.update.
  assert (Hs : Player.update_spinning (Player.update_moving p)
               = Player.update_moving p).
  { unfold Player.update_spinning. now rewrite Hspin', Hspin. }
  rewrite Hs. unfold Player.update_dancing. now rewrite Hdance', Hdance.
Qed.

Lemma unit_step (dx dy : Z) :
  Z.abs dx + Z.abs dy = 1 ->
  (dx = 1 /\ dy = 0) \/ (dx = -1 /\ dy = 0) \/
  (dx = 0 /\ dy = 1) \/ (dx = 0 /\ dy = -1).
Proof. lia. Qed.

(** What is left of the way to the target, [k] steps into the move. *)
Lemma gliding_distance `{R : Py.Runtime} (col row dx dy k : Z)
    (p : Player.t) :
  exact_on_squares ->
  Z.abs dx + Z.abs dy = 1 ->
  0 <= k <= 8 ->
  gliding col row dx dy k p ->
  (Player.target_x p - Player.x p == inject_Z dx * inject_Z (8 * (8 - k)))%Q /\
  (Player.target_y p - Player.y p == inject_Z dy * inject_Z (8 * (8 - k)))%Q /\
  (Py.sqrt ((Player.target_x p - Player.x p) ^ 2
            + (Player.target_y p - Player.y p) ^ 2)
   == inject_Z (8 * (8 - k)))%Q.
Proof.
  intros Hsqrt Hunit Hk (_ & _ & _ & Htx & Hty & _ & Hx & Hy).
  assert (Hdx : (Player.target_x p - Player.x p
                 == inject_Z dx * inject_Z (8 * (8 - k)))%Q).
  { rewrite Htx, Hx. unfold Qminus.
    rewrite <- inject_Z_opp, <- inject_Z_plus, <- inject_Z_mult.
    unfold Player._grid_to_pixel_x, Settings.PLAYER_MOVE_SPEED,
      Settings.TILE_SIZE, Settings.GAME_AREA_X.
    match goal with |- (inject_Z ?a == inject_Z ?b)%Q =>
      replace a with b by lia end.
    reflexivity. }
  assert (Hdy : (Player.target_y p - Player.y p
                 == inject_Z dy * inject_Z (8 * (8 - k)))%Q).
  { rewrite Hty, Hy. unfold Qminus.
    rewrite <- inject_Z_opp, <- inject_Z_plus, <- inject_Z_mult.
    unfold Player._grid_to_pixel_y, Settings.PLAYER_MOVE_SPEED,
      Settings.TILE_SIZE, Settings.GAME_AREA_Y.
    match goal with |- (inject_Z ?a == inject_Z ?b)%Q =>
      replace a with b by lia end.
    reflexivity. }
  split; [exact Hdx|]. split; [exact Hdy|].
  apply Hsqrt; [lia|]. rewrite Hdx, Hdy.
  change (?q ^ 2)%Q with (q * q)%Q.
  rewrite <- !inject_Z_mult, <- inject_Z_plus.
  match goal with |- (inject_Z ?a == inject_Z ?b)%Q =>
    replace a with b; [reflexivity|] end.
  destruct (unit_step dx dy Hunit) as [[-> ->]|[[-> ->]|[[-> ->]|[-> ->]]]];
    ring.
Qed.

Lemma glide_step `{R : Py.Runtime} (dt col row dx dy k : Z)
    (p : Player.t) :
  exact_on_squares ->
  Z.abs dx + Z.abs dy = 1 ->
  0 <= k < 8 ->
  gliding col row dx dy k p ->
  gliding col row dx dy (k + 1) (Player.update dt p).
Proof.
  intros Hsqrt Hunit Hk Hglide.
  destruct (gliding_distance col row dx dy k p Hsqrt Hunit) as
    (Hdx & Hdy & Hdist); [lia|assumption|].
  destruct Hglide as (Hmov & Hspin & Hdance & Htx & Hty & Hspeed & Hx & Hy).
  rewrite update_while_moving by assumption.
  unfold Player.update_moving. rewrite Hmov.
  destruct (Qlt_le_dec _ _) as [Hlt|Hle].
  - exfalso. rewrite Hdist, Hspeed in Hlt.
    rewrite <- Zlt_Qlt in Hlt. unfold Settings.PLAYER_MOVE_SPEED in Hlt. lia.
  - unfold gliding.
    cbn [Player.is_moving Player.is_spinning Player.is_dancing
         Player.target_x Player.target_y Player.move_speed Player.x
         Player.y].
    split; [reflexivity|]. do 5 (split; [assumption|]).
    assert (Hnz : ~ (inject_Z (8 * (8 - k)) == 0)%Q).
    { change 0%Q with (inject_Z 0). rewrite inject_Z_injective. lia. }
    split.
    + rewrite Hdist, Hdx, Hx, Hspeed, Qdiv_mult_l by exact Hnz.
      rewrite <- inject_Z_mult, <- inject_Z_plus.
      match goal with |- (inject_Z ?a == inject_Z ?b)%Q =>
        replace a with b by lia end.
      reflexivity.
    + rewrite Hdist, Hdy, Hy, Hspeed, Qdiv_mult_l by exact Hnz.
      rewrite <- inject_Z_mult, <- inject_Z_plus.
      match goal with |- (inject_Z ?a == inject_Z ?b)%Q =>
        replace a with b by lia end.
      reflexivity.
Qed.

Lemma glide_end `{R : Py.Runtime} (dt col row dx dy : Z) (p : Player.t) :
  exact_on_squares ->
  Z.abs dx + Z.abs dy = 1 ->
  gliding col row dx dy 8 p ->
  Player.busy (Player.update dt p) = false /\
  Player.x (Player.update dt p)
  = inject_Z (Player._grid_to_pixel_x (col + dx)) /\
  Player.y (Player.update dt p)
  = inject_Z (Player._grid_to_pixel_y (row + dy)) /\
  Player.move_speed (Player.update dt p)
  = inject_Z Settings.PLAYER_MOVE_SPEED /\
  Player.direction (Player.update dt p) = Direction.NONE.
Proof.
  intros Hsqrt Hunit Hglide.
  destruct (gliding_distance col row dx dy 8 p Hsqrt Hunit) as
    (_ & _ & Hdist); [lia|assumption|].
  destruct Hglide as (Hmov & Hspin & Hdance & Htx & Hty & Hspeed & Hx & Hy).
  rewrite update_while_moving by assumption.
  unfold Player.update_moving. rewrite Hmov.
  destruct (Qlt_le_dec _ _) as [Hlt|Hle].
  - unfold Player.busy.
    cbn [Player.is_moving Player.is_spinning Player.is_dancing
         Player.move_speed Player.x Player.y Player.direction].
    rewrite Hspin, Hdance. now repeat split.
  - exfalso. rewrite Hdist, Hspeed in Hle.
    rewrite <- Zle_Qle in Hle. unfold Settings.PLAYER_MOVE_SPEED in Hle. lia.
Qed.

Lemma try_move_gliding (dx dy : Z) (d : Direction.t) (p p1 : Player.t) :
  centred p ->
  Player._try_move dx dy d p = (true, p1) ->
  gliding (Player.grid_col p) (Player.grid_row p) dx dy 0 p1 /\
  Player.grid_col p1 = Player.grid_col p + dx /\
  Player.grid_row p1 = Player.grid_row p + dy.
Proof.
  intros (Hx & Hy & Hspeed). unfold Player._try_move, Player.busy.
  destruct (Player.is_moving p); [discriminate|].
  destruct (Player.is_spinning p) eqn:Hspin; [discriminate|].
  destruct (Player.is_dancing p) eqn:Hdance; [discriminate|].
  cbn [orb].
  destruct (Player.in_grid _ _); [|discriminate].
  destruct (Player._is_blocked _ _ _); [discriminate|].
  cbn [negb]. intros [= <-]. unfold gliding.
  cbn [Player.is_moving Player.is_spinning Player.is_dancing
       Player.target_x Player.target_y Player.move_speed Player.x
       Player.y Player.grid_col Player.grid_row].
  rewrite Hx, Hy, !Z.mul_0_r, !Z.mul_0_l, !Z.add_0_r.
  now repeat split.
Qed.

Lemma gliding_frames `{R : Py.Runtime} (col row dx dy : Z)
    (p1 : Player.t) (k : nat) :
  exact_on_squares ->
  Z.abs dx + Z.abs dy = 1 ->
  gliding col row dx dy 0 p1 ->
  (k <= 8)%nat ->
  gliding col row dx dy (Z.of_nat k) (frames_of_player k p1).
Proof.
  intros Hsqrt Hunit Hstart.
  induction k as [|k IH]; intros Hk; [exact Hstart|].
  rewrite frames_succ.
  replace (Z.of_nat (S k)) with (Z.of_nat k + 1) by lia.
  apply glide_step; [assumption|assumption|lia|apply IH; lia].
Qed.

(** X20. A move takes nine frames. With a square root that is exact on
    squares, a player at the centre of its cell that starts a move of one
    cell is on its new cell at once, and its picture follows: for eight
    frames it comes [PLAYER_MOVE_SPEED] pixels nearer to the centre of the
    new cell and the player is busy; the eighth brings it there, and the
    ninth ends the move, leaving the player idle at the centre of its cell
    with no direction. *)
Theorem a_move_takes_nine_frames `{R : Py.Runtime} (dx dy : Z)
    (d : Direction.t) (p p1 : Player.t) :
  exact_on_squares ->
  Z.abs dx + Z.abs dy = 1 ->
  centred p ->
  Player._try_move dx dy d p = (true, p1) ->
  (forall k : nat,
     (k <= 8)%nat ->
     Player.busy (frames_of_player k p1) = true /\
     (Player.x (frames_of_player k p1)
      == Player.x p
         + inject_Z (Settings.PLAYER_MOVE_SPEED * Z.of_nat k * dx))%Q /\
     (Player.y (frames_of_player k p1)
      == Player.y p
         + inject_Z (Settings.PLAYER_MOVE_SPEED * Z.of_nat k * dy))%Q) /\
  Player.busy (frames_of_player 9 p1) = false /\
  centred (frames_of_player 9 p1) /\
  Player.grid_col (frames_of_player 9 p1) = Player.grid_col p + dx /\
  Player.grid_row (frames_of_player 9 p1) = Player.grid_row p + dy /\
  Player.direction (frames_of_player 9 p1) = Direction.NONE.
Proof.
  intros Hsqrt Hunit Hcentred Hmove.
  destruct (try_move_gliding dx dy d p p1 Hcentred Hmove)
    as (Hstart & Hcol & Hrow).
  destruct Hcentred as (Hx & Hy & Hspeed).
  split.
  - intros k Hk.
    destruct (gliding_frames _ _ _ _ p1 k Hsqrt Hunit Hstart Hk)
      as (Hmov & _ & _ & _ & _ & _ & Hxk & Hyk).
    unfold Player.busy. rewrite Hmov. split; [reflexivity|].
    rewrite Hxk, Hyk, Hx, Hy, <- !inject_Z_plus. split; reflexivity.
  - pose proof (gliding_frames _ _ _ _ p1 8 Hsqrt Hunit Hstart
                  (Nat.le_refl 8)) as Hglide.
    rewrite (frames_succ 8).
    destruct (glide_end 16 _ _ _ _ _ Hsqrt Hunit Hglide)
      as (Hbusy & Hx9 & Hy9 & Hspeed9 & Hdir).
    destruct (update_cell 16 (frames_of_player 8 p1))
      as (Hcol9 & Hrow9 & _).
    assert (Hcells : forall k,
              Player.grid_col (frames_of_player k p1) = Player.grid_col p1 /\
              Player.grid_row (frames_of_player k p1) = Player.grid_row p1).
    { induction k as [|k [IHc IHr]]; [now split|].
      rewrite frames_succ.
      destruct (update_cell 16 (frames_of_player k p1)) as (-> & -> & _).
      now split. }
    destruct (Hcells 8%nat) as [Hcol8 Hrow8].
    split; [exact Hbusy|]. unfold centred.
    rewrite Hx9, Hy9, Hspeed9, Hcol9, Hrow9, Hcol8, Hrow8, Hcol, Hrow.
    now repeat split.
Qed.

Lemma sqrt_floor_exact : exact_on_squares (R := Sample.runtime).
Proof.
  intros n q Hn Hq. cbn [Py.sqrt Sample.runtime]. unfold Sample.sqrt_floor.
  rewrite Hq, Qfloor_Z, Z.sqrt_square by assumption. reflexivity.
Qed.

Lemma a_move_takes_nine_frames_witness :
  Player.busy
    (frames_of_player (R := Sample.runtime) 8
       (Player.move_left (Game.player Game.__init__)).2)
  = true /\
  Player.busy
    (frames_of_player (R := Sample.runtime) 9
       (Player.move_left (Game.player Game.__init__)).2)
  = false /\
  Player.grid_col
    (frames_of_player (R := Sample.runtime) 9
       (Player.move_left (Game.player Game.__init__)).2)
  = 4.
Proof.
  destruct (a_move_takes_nine_frames (R := Sample.runtime) (-1) 0
              Direction.LEFT (Game.player Game.__init__)
              (Player.move_left (Game.player Game.__init__)).2
              sqrt_floor_exact eq_refl)
    as (Hbusy & Hidle & _ & Hcol & _).
  - unfold centred. repeat split.
  - vm_compute. reflexivity.
  - split; [apply (Hbusy 8%nat); lia|]. split; [exact Hidle|exact Hcol].
Defined.
